(** * library_management.py: the book catalogue and its JSON store

    A shallow embedding of the classes [Book] and [Library] of
    [src/library_management.py].

    - Python [int] is [Z]; Python [str] is [string], read as the UTF-8
      encoding of the text, so that equality of strings is equality of
      texts.  The Cyrillic literals of the source are kept as they are.
    - A [Book] carries the five attributes of [Book.__init__] with the
      types of its annotations.
    - The file system is a finite map from file names to file contents.
      [json.load] and [json.dump] are library code: a file from which
      [json.load] returns a value is represented by that value, and
      [json.dump], when it completes, writes such a file.
    - [print] appends one line to the console, which takes any text.
    - A method is a state transformer over the [machine] (the object, the
      disk, the console) that also yields the value the Python method
      returns.  Code that can raise has an [outcome]: the constructor, which
      reads the store, and the call of [search_books], which Python can
      refuse for its keywords.
    - The methods that write the store come twice.  [save_books],
      [add_book], [delete_book] and [update_status] are the calls in which
      the write goes through, and so the calls that return.  [save_books_on]
      and the three methods over it are the same code on a file system that
      can refuse to open the file and an encoder that can give up in the
      middle of the text; [main_on] is [main] over these.
    - [str.lower] is a parameter of the search, and so is the text of the
      attributes an object has besides the five that [Book.__init__] sets:
      both are the interpreter's. *)

From Stdlib Require Import ZArith String Ascii List DecimalString DecimalPos DecimalZ.
From stdpp Require Import gmap strings list fin_maps.

Set Warnings "-register-all".
Open Scope string_scope.
Open Scope Z_scope.
Open Scope list_scope.

(** ** Values *)

(** What [json.load] can return.  A float is kept as its literal: no
    operation of the program computes with one. *)
Inductive json : Type :=
| JNull
| JBool (b : bool)
| JInt (z : Z)
| JFloat (lit : string)
| JStr (s : string)
| JList (l : list json)
| JObj (d : gmap string json).

(** What a file may hold, by what reading it gives.  These are the files
    of the model: a JSON text that [json.load] gives up on for its size (an
    integer literal of more digits than the interpreter converts, brackets
    nested deeper than it recurses) is not among them, and neither is a file
    that cannot be opened for reading though it exists. *)
Inductive file : Type :=
| Undecodable            (* bytes that are not UTF-8 *)
| Malformed              (* text that is not JSON, the empty file included *)
| Document (j : json).   (* a text from which json.load returns the value j *)

Inductive exn : Type :=
| FileNotFoundError
| JSONDecodeError
| UnicodeDecodeError
| KeyError (key : string)
| TypeError.

(** The result of code that may raise.  [IllTyped] stands for a run in which
    Python builds, without raising, a [Book] one of whose attributes is not
    of the type its annotation gives; such objects are outside [Book]. *)
Inductive outcome (A : Type) : Type :=
| Returns (a : A)
| Raises (e : exn)
| IllTyped.
Arguments Returns {A} a.
Arguments Raises {A} e.
Arguments IllTyped {A}.

Definition and_then {A B} (o : outcome A) (k : A → outcome B) : outcome B :=
  match o with
  | Returns a => k a
  | Raises e => Raises e
  | IllTyped => IllTyped
  end.

Notation "'try' x <- o ; k" := (and_then o (λ x, k))
  (at level 60, x name, o at next level, right associativity).

(** ** class Book *)

Record Book : Type := mkBook {
  book_id : Z;
  title : string;
  author : string;
  year : Z;
  status : string
}.

(** The values a method can hand back to its caller. *)
Inductive pyret : Type :=
| PyNone
| PyBool (b : bool)
| PyBook (b : Book)
| PyBooks (l : list Book).

(** The default of the parameter [status] of [Book.__init__]. *)
Definition default_status : string := "в наличии".

Definition to_dict (self : Book) : json :=
  JObj (<["id" := JInt (book_id self)]>
       (<["title" := JStr (title self)]>
       (<["author" := JStr (author self)]>
       (<["year" := JInt (year self)]>
       (<["status" := JStr (status self)]> ∅))))).

(** [data[key]] for a string [key]: only a dict can be indexed by a string,
    and a dict without the key raises [KeyError]. *)
Definition getitem (data : json) (key : string) : outcome json :=
  match data with
  | JObj d =>
      match d !! key with
      | Some v => Returns v
      | None => Raises (KeyError key)
      end
  | _ => Raises TypeError
  end.

(** [Book(i, t, a, y, s)] on values read from JSON. *)
Definition Book_of_json (i t a y s : json) : outcome Book :=
  match i, t, a, y, s with
  | JInt i, JStr t, JStr a, JInt y, JStr s => Returns (mkBook i t a y s)
  | _, _, _, _, _ => IllTyped
  end.

(** The five subscripts are evaluated from left to right. *)
Definition from_dict (data : json) : outcome Book :=
  try i <- getitem data "id";
  try t <- getitem data "title";
  try a <- getitem data "author";
  try y <- getitem data "year";
  try s <- getitem data "status";
  Book_of_json i t a y s.

(** ** class Library *)

Record Library : Type := mkLibrary {
  filename : string;
  books : list Book
}.

Record machine : Type := mkMachine {
  lib : Library;
  disk : gmap string file;
  console : list string
}.

Definition M (A : Type) : Type := machine → A * machine.

Definition unit_M {A} (a : A) : M A := λ m, (a, m).

Definition bind_M {A B} (c : M A) (k : A → M B) : M B :=
  λ m, let (a, m') := c m in k a m'.

Notation "'do' x <- c ; k" := (bind_M c (λ x, k))
  (at level 60, x name, c at next level, right associativity).
Notation "'run' c ; k" := (bind_M c (λ _, k))
  (at level 60, c at next level, right associativity).

Definition get_books : M (list Book) := λ m, (books (lib m), m).

Definition set_books (bs : list Book) : M unit :=
  λ m, (tt, mkMachine (mkLibrary (filename (lib m)) bs) (disk m) (console m)).

Definition print (line : string) : M unit :=
  λ m, (tt, mkMachine (lib m) (disk m) (console m ++ [line])).

(** What runs of a method leave behind. *)
Definition result_of {A} (c : M A) (m : machine) : A := fst (c m).
Definition after {A} (c : M A) (m : machine) : machine := snd (c m).

(** *** Loading *)

Definition open_read (name : string) (d : gmap string file) : outcome file :=
  match d !! name with
  | Some f => Returns f
  | None => Raises FileNotFoundError
  end.

Definition json_load (f : file) : outcome json :=
  match f with
  | Undecodable => Raises UnicodeDecodeError
  | Malformed => Raises JSONDecodeError
  | Document j => Returns j
  end.

Definition chars (s : string) : list string :=
  (λ c, String c EmptyString) <$> list_ascii_of_string s.

(** [for book in data]: a list gives its items, a dict its keys, a string
    its characters; nothing else can be iterated. *)
Definition iterate (data : json) : outcome (list json) :=
  match data with
  | JList l => Returns l
  | JObj d => Returns (JStr <$> (map_to_list d).*1)
  | JStr s => Returns (JStr <$> chars s)
  | _ => Raises TypeError
  end.

(** [[Book.from_dict(book) for book in data]]: the items are decoded in
    order and the first one that raises ends the comprehension. *)
Fixpoint from_dicts (items : list json) : outcome (list Book) :=
  match items with
  | [] => Returns []
  | j :: rest =>
      match from_dict j with
      | Returns b =>
          match from_dicts rest with
          | Returns bs => Returns (b :: bs)
          | o => o
          end
      | Raises e => Raises e
      | IllTyped =>
          match from_dicts rest with
          | Raises e => Raises e
          | _ => IllTyped
          end
      end
  end.

(** The body of the [try] block of [load_books]. *)
Definition read_books (name : string) (d : gmap string file) : outcome (list Book) :=
  try f <- open_read name d;
  try data <- json_load f;
  try items <- iterate data;
  from_dicts items.

(** [except (FileNotFoundError, json.JSONDecodeError)]: these two and no
    other exception give the empty list. *)
Definition load_books (name : string) (d : gmap string file) : outcome (list Book) :=
  match read_books name d with
  | Raises FileNotFoundError => Returns []
  | Raises JSONDecodeError => Returns []
  | o => o
  end.

(** [Library(filename)]. *)
Definition Library_init (name : string) (d : gmap string file) (out : list string)
  : outcome machine :=
  try bs <- load_books name d;
  Returns (mkMachine (mkLibrary name bs) d out).

(** *** Saving *)

(** The write that goes through: the file is opened, [json.dump] writes the
    whole text and the file is closed.  [save_books_on] below is the method
    with the ways it can raise. *)
Definition save_books : M unit :=
  λ m, (tt, mkMachine (lib m)
              (<[filename (lib m) := Document (JList (to_dict <$> books (lib m)))]> (disk m))
              (console m)).

(** *** Text *)

(** [str(n)] for an [int]: decimal digits, with a minus sign below zero. *)
Definition str_int (n : Z) : string := NilZero.string_of_int (Z.to_int n).

(** The line [display_books] prints for one book. *)
Definition book_line (book : Book) : string :=
  ("ID: " ++ str_int (book_id book) ++ ", Название: " ++ title book
   ++ ", Автор: " ++ author book ++ ", "
   ++ "Год: " ++ str_int (year book) ++ ", Статус: " ++ status book)%string.

Definition msg_added (new_id : Z) : string :=
  ("Книга с ID " ++ str_int new_id ++ " успешно добавлена.")%string.
Definition msg_deleted (id : Z) : string :=
  ("Книга с ID " ++ str_int id ++ " успешно удалена.")%string.
Definition msg_not_found (id : Z) : string :=
  ("Книга с ID " ++ str_int id ++ " не найдена.")%string.
Definition msg_no_results : string := "Книги по вашему запросу не найдены.".
Definition msg_empty : string := "Библиотека пуста.".
Definition msg_status_updated (id : Z) : string :=
  ("Статус книги с ID " ++ str_int id ++ " успешно обновлён.")%string.
Definition msg_bad_status : string :=
  "Некорректный статус. Используйте 'в наличии' или 'выдана'.".

(** *** add_book *)

(** [max(xs, default=d)] on integers. *)
Definition py_max (xs : list Z) (default : Z) : Z :=
  match xs with
  | [] => default
  | x :: rest => foldl Z.max x rest
  end.

Definition add_book (title author : string) (year : Z) : M pyret :=
  do bs <- get_books;
  let new_id := py_max (book_id <$> bs) 0 + 1 in
  let new_book := mkBook new_id title author year default_status in
  run set_books (bs ++ [new_book]);
  run save_books;
  run print (msg_added new_id);
  unit_M PyNone.

(** *** delete_book *)

(** The loop stops at the first book with the id.  [self.books.remove(book)]
    takes out the first item that is this very object; the items before it
    have another id and so are other objects: the one removed is the one at
    the index the loop reached. *)
Definition delete_book (id : Z) : M pyret :=
  do bs <- get_books;
  match list_find (λ book, book_id book = id) bs with
  | Some (i, _) =>
      run set_books (delete i bs);
      run save_books;
      run print (msg_deleted id);
      unit_M PyNone
  | None =>
      run print (msg_not_found id);
      unit_M PyNone
  end.

(** *** display_books *)

Fixpoint print_lines (lines : list string) : M unit :=
  match lines with
  | [] => unit_M tt
  | l :: rest => run print l; print_lines rest
  end.

(** [books or self.books]: [None] and the empty list both give way to
    [self.books]. *)
Definition display_books (arg : option (list Book)) : M pyret :=
  do own <- get_books;
  let shown := match arg with
               | Some (b :: rest) => b :: rest
               | _ => own
               end in
  match shown with
  | [] => run print msg_empty; unit_M PyNone
  | _ => run print_lines (book_line <$> shown); unit_M PyNone
  end.

(** *** update_status *)

Definition valid_statuses : list string := ["в наличии"; "выдана"].

Definition with_status (book : Book) (s : string) : Book :=
  mkBook (book_id book) (title book) (author book) (year book) s.

Definition update_status (id : Z) (new_status : string) : M pyret :=
  do bs <- get_books;
  match list_find (λ book, book_id book = id) bs with
  | Some (i, book) =>
      if decide (new_status ∈ valid_statuses) then
        run set_books (<[i := with_status book new_status]> bs);
        run save_books;
        run print (msg_status_updated id);
        unit_M PyNone
      else
        run print msg_bad_status;
        unit_M PyNone
  | None =>
      run print (msg_not_found id);
      unit_M PyNone
  end.

(** *** search_books *)

(** The values the attributes of a [Book] and the arguments of a search
    take. *)
Inductive pyval : Type :=
| VInt (n : Z)
| VStr (s : string).

Definition py_str (v : pyval) : string :=
  match v with
  | VInt n => str_int n
  | VStr s => s
  end.

(** [str.lower] on text whose letters are ASCII. *)
Definition ascii_lower_char (c : ascii) : ascii :=
  if ((65 <=? N_of_ascii c) && (N_of_ascii c <=? 90))%N
  then ascii_of_N (N_of_ascii c + 32)
  else c.

Fixpoint ascii_lower (s : string) : string :=
  match s with
  | EmptyString => EmptyString
  | String c rest => String (ascii_lower_char c) (ascii_lower rest)
  end.

Fixpoint is_ascii (s : string) : bool :=
  match s with
  | EmptyString => true
  | String c rest => (N_of_ascii c <? 128)%N && is_ascii rest
  end.

(** What the model asks of [str.lower], which works on all of Unicode: on
    ASCII text it lowers the letters A to Z and nothing else, and only the
    empty text has an empty image. *)
Record lower_spec (lower : string → string) : Prop := {
  lower_ascii : ∀ s, is_ascii s = true → lower s = ascii_lower s;
  lower_nonempty : ∀ s, lower s = "" → s = ""
}.

Section Search.

(** [str.lower]. *)
Variable lower : string → string.

(** [class_attr book key] is the text [str] gives for an attribute that
    [book] has besides its five data attributes: a method ([to_dict],
    [from_dict]) or a name every object has ([__doc__], [__class__], ...);
    [None] for a name that is no attribute of [book]. *)
Variable class_attr : Book → string → option string.

(** [str(getattr(book, key, ""))]. *)
Definition getattr_str (book : Book) (key : string) : string :=
  if decide (key = "book_id") then py_str (VInt (book_id book))
  else if decide (key = "title") then py_str (VStr (title book))
  else if decide (key = "author") then py_str (VStr (author book))
  else if decide (key = "year") then py_str (VInt (year book))
  else if decide (key = "status") then py_str (VStr (status book))
  else match class_attr book key with
       | Some text => text
       | None => py_str (VStr "")
       end.

(** The condition of the comprehension in the loop of [search_books]. *)
Definition criterion (kv : string * pyval) (book : Book) : Prop :=
  lower (getattr_str book kv.1) = lower (py_str kv.2).

#[global] Instance criterion_dec kv book : Decision (criterion kv book).
Proof. unfold criterion. apply _. Defined.

(** The value of [results] when the loop over [kwargs.items()] ends. *)
Definition search_results (kwargs : list (string * pyval)) (bs : list Book)
  : list Book :=
  foldl (λ results kv, filter (criterion kv) results) bs kwargs.

(** The body of [search_books]. *)
Definition search_body (kwargs : list (string * pyval)) : M pyret :=
  do bs <- get_books;
  let results := search_results kwargs bs in
  match results with
  | [] => run print msg_no_results; unit_M PyNone
  | _ => run display_books (Some results); unit_M PyNone
  end.

(** The call of [search_books] with the keywords [kwargs].  The object is
    bound to the first parameter, [self], by position; a keyword of that
    name would bind it a second time, and Python refuses the call with
    [TypeError] (got multiple values for argument 'self') before the body
    runs.  Every other keyword lands in the dict of the body. *)
Definition search_books (kwargs : list (string * pyval)) (m : machine)
  : outcome (pyret * machine) :=
  if decide ("self" ∈ kwargs.*1) then Raises TypeError
  else Returns (search_body kwargs m).

End Search.

(** ** Vocabulary of the statements *)

(** The ids of the catalogue, in its order. *)
Definition ids (m : machine) : list Z := book_id <$> books (lib m).

(** The store after [save_books] has written [bs] to the file of [m]. *)
Definition saved (m : machine) (bs : list Book) : gmap string file :=
  <[filename (lib m) := Document (JList (to_dict <$> bs))]> (disk m).

(** What [display_books] prints for the list it settles on. *)
Definition display_lines (shown : list Book) : list string :=
  match shown with
  | [] => [msg_empty]
  | _ => book_line <$> shown
  end.

(** What [search_books] prints for the books it selected. *)
Definition search_lines (selected : list Book) : list string :=
  match selected with
  | [] => [msg_no_results]
  | _ => book_line <$> selected
  end.

(** The fields a search is meant for, and what they hold. *)
Inductive field : Type := Title | Author | Year | Status.

Definition field_name (f : field) : string :=
  match f with
  | Title => "title"
  | Author => "author"
  | Year => "year"
  | Status => "status"
  end.

Definition field_value (f : field) (book : Book) : pyval :=
  match f with
  | Title => VStr (title book)
  | Author => VStr (author book)
  | Year => VInt (year book)
  | Status => VStr (status book)
  end.

(** The names [Book.__init__] sets on the object. *)
Definition data_attributes : list string :=
  ["book_id"; "title"; "author"; "year"; "status"].

(** The calls that change a catalogue. *)
Inductive op : Type :=
| Add (title author : string) (year : Z)
| Delete (id : Z)
| UpdateStatus (id : Z) (new_status : string).

Definition step (o : op) : M pyret :=
  match o with
  | Add t a y => add_book t a y
  | Delete id => delete_book id
  | UpdateStatus id s => update_status id s
  end.

Fixpoint steps (os : list op) : M unit :=
  match os with
  | [] => unit_M tt
  | o :: rest => run step o; steps rest
  end.

(** A run of [add_book] calls only. *)
Definition adds (entries : list (string * string * Z)) : list op :=
  (λ e, Add e.1.1 e.1.2 e.2) <$> entries.

(** ** Machines to evaluate on *)

Definition empty_machine : machine :=
  mkMachine (mkLibrary "library.json" []) ∅ [].

Definition one_book : machine :=
  after (add_book "War and Peace" "Tolstoy" 1869) empty_machine.

(** Three books are added to an empty catalogue and the second is deleted,
    which leaves the ids 1 and 3. *)
Definition machine_1_3 : machine :=
  after (run add_book "Anna Karenina" "Tolstoy" 1877;
         run add_book "Dead Souls" "Gogol" 1842;
         run add_book "Oblomov" "Goncharov" 1859;
         delete_book 2) empty_machine.

(** An interpreter to evaluate searches with: the texts are ASCII, and the
    names searched for are data attributes or no attributes at all. *)
Definition no_class_attr : Book → string → option string := λ _ _, None.

(** ** More vocabulary *)

(** The keys of a record of the store, in the order [from_dict] reads
    them. *)
Definition record_keys : list string :=
  ["id"; "title"; "author"; "year"; "status"].

(** The store holds what the object holds: a fresh [Library] on the same
    file would load the books that are in memory. *)
Definition in_sync (m : machine) : Prop :=
  load_books (filename (lib m)) (disk m) = Returns (books (lib m)).

(** A book without its status. *)
Definition identity_of (book : Book) : Z * string * string * Z :=
  (book_id book, title book, author book, year book).

(** ** main *)

(** How the program can die: [input] at the end of the input, [int] on a
    text that is no integer, an exception of the library that nobody
    catches, and the two ways a write of the store can raise: in [open]
    (an [OSError]: no such directory, no permission, no file but a
    directory) and after it, in [json.dump] or in the writing of its text (a
    [ValueError] for an integer of too many digits, a [UnicodeEncodeError],
    an [OSError] of a full disk).  [Unmodelled] passes on an [IllTyped];
    no call of the loop gives one. *)
Inductive crash : Type :=
| EOFError
| ValueError
| Uncaught (e : exn)
| Unmodelled
| OpenError
| DumpError.

(** The program at work: the library and the machine, the lines still to be
    read from the standard input, and the prompts [input] has shown. *)
Record process : Type := mkProcess {
  mach : machine;
  stdin : list string;
  prompts : list string
}.

Inductive io_result (A : Type) : Type :=
| Done (a : A)
| Crash (c : crash).
Arguments Done {A} a.
Arguments Crash {A} c.

(** An exception leaves the process as it was when it was raised. *)
Definition IO (A : Type) : Type := process → io_result A * process.

Definition io_ret {A} (a : A) : IO A := λ s, (Done a, s).

Definition io_bind {A B} (c : IO A) (k : A → IO B) : IO B :=
  λ s, match c s with
       | (Done a, s') => k a s'
       | (Crash e, s') => (Crash e, s')
       end.

Notation "'io' x <- c ; k" := (io_bind c (λ x, k))
  (at level 60, x name, c at next level, right associativity).
Notation "'seq' c ; k" := (io_bind c (λ _, k))
  (at level 60, c at next level, right associativity).

(** A method call of the library. *)
Definition lift {A} (c : M A) : IO A :=
  λ s, (Done (result_of c (mach s)),
        mkProcess (after c (mach s)) (stdin s) (prompts s)).

(** A call that can raise. *)
Definition lift_outcome {A} (c : machine → outcome (A * machine)) : IO A :=
  λ s, match c (mach s) with
       | Returns (a, m') => (Done a, mkProcess m' (stdin s) (prompts s))
       | Raises e => (Crash (Uncaught e), s)
       | IllTyped => (Crash Unmodelled, s)
       end.

(** [input(prompt)]: the prompt is shown, then a line is read. *)
Definition input (prompt : string) : IO string :=
  λ s, match stdin s with
       | line :: rest =>
           (Done line, mkProcess (mach s) rest (prompts s ++ [prompt]))
       | [] => (Crash EOFError, mkProcess (mach s) [] (prompts s ++ [prompt]))
       end.

Definition say (line : string) : IO unit := lift (print line).

Definition menu : list string :=
  [String "010"%char "Доступные действия:";
   "1. Добавить книгу";
   "2. Удалить книгу";
   "3. Поиск книги";
   "4. Отобразить все книги";
   "5. Изменить статус книги";
   "6. Выйти"].

Definition prompt_choice : string := "Введите номер действия: ".
Definition prompt_title : string := "Введите название книги: ".
Definition prompt_author : string := "Введите автора книги: ".
Definition prompt_year : string := "Введите год издания книги: ".
Definition prompt_delete : string := "Введите ID книги для удаления: ".
Definition prompt_field : string :=
  "Введите поле для поиска (title, author, year): ".
Definition prompt_value : string := "Введите значение для поиска: ".
Definition prompt_update : string := "Введите ID книги для изменения статуса: ".
Definition prompt_status : string :=
  "Введите новый статус ('в наличии' или 'выдана'): ".
Definition msg_exit : string := "Выход из приложения.".
Definition msg_bad_choice : string := "Некорректный выбор. Попробуйте снова.".

Section Main.

(** [int] on a text: [None] where Python raises [ValueError]. *)
Variable int_of_str : string → option Z.

(** [str.strip]. *)
Variable strip : string → string.

Variable lower : string → string.
Variable class_attr : Book → string → option string.

Definition to_int (text : string) : IO Z :=
  λ s, match int_of_str text with
       | Some n => (Done n, s)
       | None => (Crash ValueError, s)
       end.

(** One round of the [while True] loop; [false] is the [break]. *)
Definition turn : IO bool :=
  seq lift (print_lines menu);
  io choice <- input prompt_choice;
  if decide (choice = "1") then
    io title <- input prompt_title;
    io author <- input prompt_author;
    io text <- input prompt_year;
    io year <- to_int text;
    seq lift (add_book title author year);
    io_ret true
  else if decide (choice = "2") then
    io text <- input prompt_delete;
    io book_id <- to_int text;
    seq lift (delete_book book_id);
    io_ret true
  else if decide (choice = "3") then
    io field <- input prompt_field;
    io value <- input prompt_value;
    seq lift_outcome (search_books lower class_attr
                        [(strip field, VStr (strip value))]);
    io_ret true
  else if decide (choice = "4") then
    seq lift (display_books None);
    io_ret true
  else if decide (choice = "5") then
    io text <- input prompt_update;
    io book_id <- to_int text;
    io status <- input prompt_status;
    seq lift (update_status book_id (strip status));
    io_ret true
  else if decide (choice = "6") then
    seq say msg_exit;
    io_ret false
  else
    seq say msg_bad_choice;
    io_ret true.

Inductive ending : Type :=
| Exited
| Crashed (c : crash).

(** The loop, for at most [rounds] rounds; [None] when they do not
    suffice. *)
Fixpoint loop (rounds : nat) (s : process) : option (ending * process) :=
  match rounds with
  | O => None
  | S rounds' =>
      match turn s with
      | (Done true, s') => loop rounds' s'
      | (Done false, s') => Some (Exited, s')
      | (Crash c, s') => Some (Crashed c, s')
      end
  end.

(** How [main] went: [Library()] raised, or the loop ran and ended.
    [Untyped] is the run on a store one of whose records has the five keys
    but a value of another type than [Book.__init__] announces: Python
    builds the library all the same and the loop runs on objects that are
    outside [Book], where the model does not follow it. *)
Inductive main_result : Type :=
| NotBuilt (e : exn)
| Untyped
| Ran (how : ending) (s : process).

(** [main()], fed the lines [lines] on a disk [d], when every write of the
    store goes through.  Every round that goes on reads a line at least, so
    one round more than there are lines is enough. *)
Definition main (lines : list string) (d : gmap string file)
  : option main_result :=
  match Library_init "library.json" d [] with
  | Returns m =>
      (λ r, Ran r.1 r.2) <$> loop (S (length lines)) (mkProcess m lines [])
  | Raises e => Some (NotBuilt e)
  | IllTyped => Some Untyped
  end.

End Main.

(** [int] on decimal texts: an instance to evaluate with. *)
Definition int_of_text (text : string) : option Z :=
  Z.of_int <$> NilZero.int_of_string text.

(** What a user asks for in one round. *)
Inductive command : Type :=
| CAdd (title author : string) (year : Z)
| CDelete (id : Z)
| CSearch (field value : string)
| CDisplay
| CUpdate (id : Z) (status : string)
| COther (choice : string).

(** The lines the user types for it. *)
Definition lines_of (c : command) : list string :=
  match c with
  | CAdd t a y => ["1"; t; a; str_int y]
  | CDelete id => ["2"; str_int id]
  | CSearch f v => ["3"; f; v]
  | CDisplay => ["4"]
  | CUpdate id st => ["5"; str_int id; st]
  | COther choice => [choice]
  end.

(** The prompts shown for it. *)
Definition prompts_of (c : command) : list string :=
  match c with
  | CAdd _ _ _ => [prompt_choice; prompt_title; prompt_author; prompt_year]
  | CDelete _ => [prompt_choice; prompt_delete]
  | CSearch _ _ => [prompt_choice; prompt_field; prompt_value]
  | CDisplay => [prompt_choice]
  | CUpdate _ _ => [prompt_choice; prompt_update; prompt_status]
  | COther _ => [prompt_choice]
  end.

Definition choices : list string := ["1"; "2"; "3"; "4"; "5"; "6"].

Section Commands.

Variable strip : string → string.
Variable lower : string → string.
Variable class_attr : Book → string → option string.

(** What the round does for it, once the menu is printed. *)
Definition effect (c : command) : machine → machine :=
  match c with
  | CAdd t a y => after (add_book t a y)
  | CDelete id => after (delete_book id)
  | CSearch f v =>
      after (search_body lower class_attr [(strip f, VStr (strip v))])
  | CDisplay => after (display_books None)
  | CUpdate id st => after (update_status id (strip st))
  | COther _ => after (print msg_bad_choice)
  end.

(** The rounds that go on: a search by a field other than "self", and as
    other choice a line that is none of the six. *)
Definition goes_on (c : command) : Prop :=
  match c with
  | CSearch f _ => strip f ≠ "self"
  | COther choice => choice ∉ choices
  | _ => True
  end.

(** The machine after the rounds for [cs]. *)
Definition rounds_of (cs : list command) (m : machine) : machine :=
  foldl (λ m c, effect c (after (print_lines menu) m)) m cs.

End Commands.

(** ** Writes that fail *)

(** How one write of the store goes.  [open(self.filename, "w")] can raise,
    and then the file is as it was.  Once it is open the file is empty;
    [json.dump] hands the text over piece by piece, the bracket that closes
    the list last, so when it raises, or the writing does, the file keeps a
    beginning of the text, which is no JSON; when the writing stops inside a
    character, what the file keeps is not even UTF-8. *)
Inductive fate : Type :=
| Written
| Refused
| Torn (cut : bool).

(** What a write that raised after [open] leaves in the file. *)
Definition torn (cut : bool) : file :=
  if cut then Undecodable else Malformed.

(** The machine whose catalogue has become [bs] and is about to be
    written. *)
Definition before_write (m : machine) (bs : list Book) : machine :=
  mkMachine (mkLibrary (filename (lib m)) bs) (disk m) (console m).

Section Writes.

(** The fate of the write that [save_books] starts on a machine: the file
    system's and the encoder's, and so a parameter. *)
Variable write_fate : machine → fate.

Definition save_books_on : IO unit :=
  λ s, let m := mach s in
       match write_fate m with
       | Written => lift save_books s
       | Refused => (Crash OpenError, s)
       | Torn cut =>
           (Crash DumpError,
            mkProcess (mkMachine (lib m)
                         (<[filename (lib m) := torn cut]> (disk m))
                         (console m))
                      (stdin s) (prompts s))
       end.

Definition add_book_on (title author : string) (year : Z) : IO pyret :=
  io bs <- lift get_books;
  let new_id := py_max (book_id <$> bs) 0 + 1 in
  let new_book := mkBook new_id title author year default_status in
  seq lift (set_books (bs ++ [new_book]));
  seq save_books_on;
  seq lift (print (msg_added new_id));
  io_ret PyNone.

Definition delete_book_on (id : Z) : IO pyret :=
  io bs <- lift get_books;
  match list_find (λ book, book_id book = id) bs with
  | Some (i, _) =>
      seq lift (set_books (delete i bs));
      seq save_books_on;
      seq lift (print (msg_deleted id));
      io_ret PyNone
  | None =>
      seq lift (print (msg_not_found id));
      io_ret PyNone
  end.

Definition update_status_on (id : Z) (new_status : string) : IO pyret :=
  io bs <- lift get_books;
  match list_find (λ book, book_id book = id) bs with
  | Some (i, book) =>
      if decide (new_status ∈ valid_statuses) then
        seq lift (set_books (<[i := with_status book new_status]> bs));
        seq save_books_on;
        seq lift (print (msg_status_updated id));
        io_ret PyNone
      else
        seq lift (print msg_bad_status);
        io_ret PyNone
  | None =>
      seq lift (print (msg_not_found id));
      io_ret PyNone
  end.

Definition step_on (o : op) : IO pyret :=
  match o with
  | Add t a y => add_book_on t a y
  | Delete id => delete_book_on id
  | UpdateStatus id s => update_status_on id s
  end.

Variable int_of_str : string → option Z.
Variable strip : string → string.
Variable lower : string → string.
Variable class_attr : Book → string → option string.

(** One round of the [while True] loop; [false] is the [break]. *)
Definition turn_on : IO bool :=
  seq lift (print_lines menu);
  io choice <- input prompt_choice;
  if decide (choice = "1") then
    io title <- input prompt_title;
    io author <- input prompt_author;
    io text <- input prompt_year;
    io year <- to_int int_of_str text;
    seq add_book_on title author year;
    io_ret true
  else if decide (choice = "2") then
    io text <- input prompt_delete;
    io book_id <- to_int int_of_str text;
    seq delete_book_on book_id;
    io_ret true
  else if decide (choice = "3") then
    io field <- input prompt_field;
    io value <- input prompt_value;
    seq lift_outcome (search_books lower class_attr
                        [(strip field, VStr (strip value))]);
    io_ret true
  else if decide (choice = "4") then
    seq lift (display_books None);
    io_ret true
  else if decide (choice = "5") then
    io text <- input prompt_update;
    io book_id <- to_int int_of_str text;
    io status <- input prompt_status;
    seq update_status_on book_id (strip status);
    io_ret true
  else if decide (choice = "6") then
    seq say msg_exit;
    io_ret false
  else
    seq say msg_bad_choice;
    io_ret true.

Fixpoint loop_on (rounds : nat) (s : process) : option (ending * process) :=
  match rounds with
  | O => None
  | S rounds' =>
      match turn_on s with
      | (Done true, s') => loop_on rounds' s'
      | (Done false, s') => Some (Exited, s')
      | (Crash c, s') => Some (Crashed c, s')
      end
  end.

(** [main()], fed the lines [lines] on a disk [d]: what [Library()] raises,
    or how the loop ended and on what.  [IllTyped] is the run the model
    does not follow, on a library built from records outside [Book]. *)
Definition main_on (lines : list string) (d : gmap string file)
  : outcome (option (ending * process)) :=
  try m <- Library_init "library.json" d [];
  Returns (loop_on (S (length lines)) (mkProcess m lines [])).

End Writes.

(** The file system on which every write goes through. *)
Definition all_written : machine → fate := λ _, Written.

(** How a round, or a session, can end in an exception before the library
    has been asked to change anything: the input is used up, a line that
    should be a number is none, or the search is by the field "self". *)
Definition before_any_change (c : crash) : Prop :=
  c = EOFError ∨ c = ValueError ∨ c = Uncaught TypeError.

(** The calls that come to write the store: every [add_book], a
    [delete_book] whose id is in the catalogue, an [update_status] whose id
    is in the catalogue and whose status is allowed. *)
Definition reaches_write (o : op) (m : machine) : Prop :=
  match o with
  | Add _ _ _ => True
  | Delete id => id ∈ ids m
  | UpdateStatus id st => id ∈ ids m ∧ st ∈ valid_statuses
  end.

(** What a call [o] on the machine [m] leaves when its write raises [c]:
    the catalogue is already changed in memory, nothing is printed yet, and
    the file is as it was or torn. *)
Definition failed_write (o : op) (c : crash) (m m' : machine) : Prop :=
  lib m' = lib (after (step o) m)
  ∧ console m' = console m
  ∧ (c = OpenError ∧ disk m' = disk m
     ∨ ∃ cut, c = DumpError
              ∧ disk m' = <[filename (lib m) := torn cut]> (disk m)).

(** * Properties *)

(** ** Facts about the pieces *)

(** *** Decoding what was encoded *)

Lemma from_dict_to_dict (b : Book) : from_dict (to_dict b) = Returns b.
Proof.
  destruct b as [i t a y s]. unfold from_dict, to_dict, getitem; simpl.
  by simplify_map_eq.
Qed.

Lemma from_dicts_to_dict (bs : list Book) :
  from_dicts (to_dict <$> bs) = Returns bs.
Proof.
  induction bs as [|b bs IH]; [done|].
  rewrite fmap_cons. simpl. by rewrite from_dict_to_dict, IH.
Qed.

Lemma read_books_saved (name : string) (bs : list Book) (d : gmap string file) :
  read_books name (<[name := Document (JList (to_dict <$> bs))]> d) = Returns bs.
Proof.
  unfold read_books, open_read. rewrite lookup_insert_eq. simpl.
  apply from_dicts_to_dict.
Qed.

(** *** The greatest id *)

Lemma foldl_max_bounds (rest : list Z) (x : Z) :
  x ≤ foldl Z.max x rest ∧ Forall (λ y, y ≤ foldl Z.max x rest) rest.
Proof.
  revert x. induction rest as [|y rest IH]; intros x; simpl.
  - split; [lia | constructor].
  - destruct (IH (Z.max x y)) as [Hx Hrest]. split; [lia|].
    constructor; [lia | done].
Qed.

Lemma foldl_max_elem (rest : list Z) (x : Z) : foldl Z.max x rest ∈ x :: rest.
Proof.
  revert x. induction rest as [|y rest IH]; intros x; simpl; [by left|].
  pose proof (IH (Z.max x y)) as [Heq|Hin]%elem_of_cons.
  - rewrite Heq. destruct (Z.max_spec x y) as [[_ ->]|[_ ->]].
    + right. by left.
    + by left.
  - by do 2 right.
Qed.

(** [py_max] is the greatest element of a list that has one, and the
    default on the empty list. *)
Lemma py_max_upper (xs : list Z) (d x : Z) : x ∈ xs → x ≤ py_max xs d.
Proof.
  destruct xs as [|y rest]; [by intros ?%elem_of_nil|]. simpl.
  destruct (foldl_max_bounds rest y) as [Hy Hrest].
  rewrite Forall_forall in Hrest. intros [->|Hin]%elem_of_cons; auto.
Qed.

Lemma py_max_elem (xs : list Z) (d : Z) : xs ≠ [] → py_max xs d ∈ xs.
Proof. destruct xs as [|y rest]; [done|]. intros _. apply foldl_max_elem. Qed.

Lemma py_max_nil (d : Z) : py_max [] d = d.
Proof. reflexivity. Qed.

(** The id [add_book] hands out is not in use. *)
Lemma new_id_fresh (xs : list Z) : py_max xs 0 + 1 ∉ xs.
Proof. intros Hin%(py_max_upper _ 0). lia. Qed.

Lemma py_max_seqZ (n : nat) : py_max (seqZ 1 (Z.of_nat n)) 0 = Z.of_nat n.
Proof.
  destruct n as [|n]; [done|].
  assert (Hin : Z.of_nat (S n) ∈ seqZ 1 (Z.of_nat (S n)))
    by (apply elem_of_seqZ; lia).
  pose proof (py_max_upper _ 0 _ Hin) as Hupper.
  assert (Hmax : py_max (seqZ 1 (Z.of_nat (S n))) 0 ∈ seqZ 1 (Z.of_nat (S n))).
  { apply py_max_elem. intros Hnil. rewrite Hnil in Hin.
    by apply elem_of_nil in Hin. }
  apply elem_of_seqZ in Hmax. lia.
Qed.

(** *** The first book with an id *)

(** What the loops of [delete_book] and [update_status] find: the first
    book with the id, and where it is. *)
Lemma find_by_id (id : Z) (bs : list Book) :
  match list_find (λ book, book_id book = id) bs with
  | Some (i, b) =>
      ∃ l1 l2, bs = l1 ++ b :: l2 ∧ i = length l1
               ∧ book_id b = id ∧ id ∉ book_id <$> l1
  | None => id ∉ book_id <$> bs
  end.
Proof.
  destruct (list_find _ bs) as [[i b]|] eqn:Hfind.
  - apply list_find_Some in Hfind as (Hi & Hid & Hfirst).
    exists (take i bs), (drop (S i) bs).
    assert (i < length bs)%nat by (by eapply lookup_lt_Some).
    split_and!; [by rewrite take_drop_middle | rewrite length_take; lia | done |].
    intros (b' & -> & Hin)%list_elem_of_fmap.
    apply list_elem_of_lookup in Hin as [j Hj].
    assert (j < i)%nat.
    { apply lookup_lt_Some in Hj. rewrite length_take in Hj. lia. }
    rewrite lookup_take_lt in Hj by done. by eapply Hfirst.
  - apply list_find_None in Hfind. rewrite Forall_forall in Hfind.
    intros (b' & -> & Hin)%list_elem_of_fmap. by eapply Hfind.
Qed.

Lemma find_by_id_absent (id : Z) (bs : list Book) :
  id ∉ book_id <$> bs → list_find (λ book, book_id book = id) bs = None.
Proof.
  intros Hno. apply list_find_None, Forall_forall. intros b Hb Hid.
  apply Hno, list_elem_of_fmap. eauto.
Qed.

Lemma find_by_id_first (id : Z) (l1 l2 : list Book) (b : Book) :
  book_id b = id → id ∉ book_id <$> l1 →
  list_find (λ book, book_id book = id) (l1 ++ b :: l2) = Some (length l1, b).
Proof.
  intros Hid Hno. apply list_find_Some. split_and!.
  - by rewrite list_lookup_middle.
  - done.
  - intros j y Hj Hlt Hy. apply Hno, list_elem_of_fmap. exists y. split; [done|].
    rewrite lookup_app_l in Hj by done. by eapply list_elem_of_lookup_2.
Qed.

Lemma first_with_id (id : Z) (bs : list Book) :
  id ∈ book_id <$> bs →
  ∃ l1 b l2, bs = l1 ++ b :: l2 ∧ book_id b = id ∧ id ∉ book_id <$> l1.
Proof.
  intros Hin. pose proof (find_by_id id bs) as Hfind.
  destruct (list_find _ _) as [[i b]|]; [|done].
  destruct Hfind as (l1 & l2 & Hbs & _ & Hid & Hfirst). by exists l1, b, l2.
Qed.

Lemma valid_statuses_elem (s : string) :
  s ∈ valid_statuses ↔ s = "в наличии" ∨ s = "выдана".
Proof.
  unfold valid_statuses. rewrite !elem_of_cons, elem_of_nil. tauto.
Qed.

(** *** One call of each method *)

Lemma add_book_run (t a : string) (y : Z) (m : machine) :
  let new_book := mkBook (py_max (ids m) 0 + 1) t a y default_status in
  add_book t a y m
  = (PyNone,
     mkMachine (mkLibrary (filename (lib m)) (books (lib m) ++ [new_book]))
               (saved m (books (lib m) ++ [new_book]))
               (console m ++ [msg_added (py_max (ids m) 0 + 1)])).
Proof. reflexivity. Qed.

Lemma delete_book_found (id : Z) (m : machine) (l1 l2 : list Book) (b : Book) :
  books (lib m) = l1 ++ b :: l2 → book_id b = id → id ∉ book_id <$> l1 →
  delete_book id m
  = (PyNone,
     mkMachine (mkLibrary (filename (lib m)) (l1 ++ l2))
               (saved m (l1 ++ l2))
               (console m ++ [msg_deleted id])).
Proof.
  intros Hbs Hid Hno. unfold delete_book, bind_M, get_books.
  rewrite Hbs, (find_by_id_first id l1 l2 b Hid Hno).
  unfold set_books, save_books, print, unit_M, saved; simpl.
  by rewrite delete_middle.
Qed.

Lemma delete_book_absent (id : Z) (m : machine) :
  id ∉ ids m →
  delete_book id m
  = (PyNone, mkMachine (lib m) (disk m) (console m ++ [msg_not_found id])).
Proof.
  intros Hno. unfold delete_book, bind_M, get_books.
  by rewrite (find_by_id_absent id _ Hno).
Qed.

Lemma update_status_absent (id : Z) (s : string) (m : machine) :
  id ∉ ids m →
  update_status id s m
  = (PyNone, mkMachine (lib m) (disk m) (console m ++ [msg_not_found id])).
Proof.
  intros Hno. unfold update_status, bind_M, get_books.
  by rewrite (find_by_id_absent id _ Hno).
Qed.

Lemma update_status_rejected (id : Z) (s : string) (m : machine) :
  id ∈ ids m → s ∉ valid_statuses →
  update_status id s m
  = (PyNone, mkMachine (lib m) (disk m) (console m ++ [msg_bad_status])).
Proof.
  intros Hin Hbad. unfold update_status, bind_M, get_books.
  pose proof (find_by_id id (books (lib m))) as Hfind.
  destruct (list_find _ _) as [[i b]|]; [|done].
  by rewrite decide_False.
Qed.

Lemma update_status_found (id : Z) (s : string) (m : machine)
    (l1 l2 : list Book) (b : Book) :
  books (lib m) = l1 ++ b :: l2 → book_id b = id → id ∉ book_id <$> l1 →
  s ∈ valid_statuses →
  update_status id s m
  = (PyNone,
     mkMachine (mkLibrary (filename (lib m)) (l1 ++ with_status b s :: l2))
               (saved m (l1 ++ with_status b s :: l2))
               (console m ++ [msg_status_updated id])).
Proof.
  intros Hbs Hid Hno Hok. unfold update_status, bind_M, get_books.
  rewrite Hbs, (find_by_id_first id l1 l2 b Hid Hno), decide_True by done.
  unfold set_books, save_books, print, unit_M, saved; simpl.
  by rewrite insert_app_r_alt, Nat.sub_diag.
Qed.

Lemma print_lines_run (lines : list string) (m : machine) :
  print_lines lines m = (tt, mkMachine (lib m) (disk m) (console m ++ lines)).
Proof.
  revert m. induction lines as [|l lines IH]; intros m; simpl.
  - unfold unit_M. rewrite app_nil_r. by destruct m.
  - unfold bind_M, print. rewrite IH. simpl. by rewrite <- app_assoc.
Qed.

Lemma display_books_run (arg : option (list Book)) (m : machine) :
  display_books arg m
  = (PyNone,
     mkMachine (lib m) (disk m)
       (console m ++ display_lines match arg with
                                   | Some (b :: rest) => b :: rest
                                   | _ => books (lib m)
                                   end)).
Proof.
  unfold display_books, bind_M, get_books.
  destruct arg as [[|b rest]|]; cbn -[print_lines];
    try destruct (books (lib m)); try done; by rewrite print_lines_run.
Qed.

(** *** Searching *)

Lemma ascii_lower_spec : lower_spec ascii_lower.
Proof. split; [done|]. by intros [|c s]. Qed.

Lemma filter_all {A} (P : A → Prop) `{!∀ x, Decision (P x)} (l : list A) :
  (∀ x, x ∈ l → P x) → filter P l = l.
Proof.
  induction l as [|x l IH]; intros Hall; [done|].
  rewrite filter_cons_True by (apply Hall; by left).
  rewrite IH; [done|]. intros y Hy. apply Hall. by right.
Qed.

Lemma filter_none {A} (P : A → Prop) `{!∀ x, Decision (P x)} (l : list A) :
  (∀ x, x ∈ l → ¬ P x) → filter P l = [].
Proof.
  induction l as [|x l IH]; intros Hall; [done|].
  rewrite filter_cons_False by (apply Hall; by left).
  apply IH. intros y Hy. apply Hall. by right.
Qed.

Section SearchFacts.

Variable lower : string → string.
Variable class_attr : Book → string → option string.

Lemma search_body_run (kwargs : list (string * pyval)) (m : machine) :
  search_body lower class_attr kwargs m
  = (PyNone,
     mkMachine (lib m) (disk m)
       (console m
        ++ search_lines (search_results lower class_attr kwargs (books (lib m))))).
Proof.
  unfold search_body, bind_M, get_books.
  destruct (search_results _ _ _ _) as [|b rest] eqn:Hres; [done|].
  by rewrite display_books_run.
Qed.

(** A call with admissible keywords runs the body. *)
Lemma search_books_run (kwargs : list (string * pyval)) (m : machine) :
  "self" ∉ kwargs.*1 →
  search_books lower class_attr kwargs m
  = Returns (PyNone,
       mkMachine (lib m) (disk m)
         (console m
          ++ search_lines (search_results lower class_attr kwargs (books (lib m))))).
Proof.
  intros Hself. unfold search_books.
  by rewrite decide_False, search_body_run.
Qed.

(** The loop over the criteria is one filter by all of them. *)
Lemma search_results_filter (kwargs : list (string * pyval)) (bs : list Book) :
  search_results lower class_attr kwargs bs
  = filter (λ book, Forall (λ kv, criterion lower class_attr kv book) kwargs) bs.
Proof.
  unfold search_results. revert bs.
  induction kwargs as [|kv kwargs IH]; intros bs; simpl.
  - symmetry. apply filter_all. intros book _. constructor.
  - rewrite IH, list_filter_filter. apply list_filter_iff.
    intros book. rewrite Forall_cons. tauto.
Qed.

Lemma search_results_one (key : string) (v : pyval) (bs : list Book) :
  search_results lower class_attr [(key, v)] bs
  = filter (λ book, lower (getattr_str class_attr book key) = lower (py_str v)) bs.
Proof. reflexivity. Qed.

Lemma getattr_str_field (f : field) (book : Book) :
  getattr_str class_attr book (field_name f) = py_str (field_value f book).
Proof. by destruct f. Qed.

Lemma getattr_str_default (book : Book) (key : string) :
  key ∉ data_attributes → class_attr book key = None →
  getattr_str class_attr book key = "".
Proof.
  intros Hkey Hnone. unfold getattr_str, data_attributes in *.
  rewrite !not_elem_of_cons in Hkey. destruct Hkey as (?&?&?&?&?&_).
  rewrite !decide_False by done. by rewrite Hnone.
Qed.

End SearchFacts.

Lemma field_name_not_self (f : field) : "self" ∉ [(field_name f)].
Proof. rewrite list_elem_of_singleton. by destruct f. Qed.

(** *** Runs *)

(** What a call does to the list of ids: [add_book] appends the new id, a
    [delete_book] takes one id out, the other calls keep the list. *)
Lemma step_ids (o : op) (m : machine) :
  (∃ t a y, o = Add t a y
            ∧ ids (after (step o) m) = ids m ++ [py_max (ids m) 0 + 1])
  ∨ (∃ i, ids (after (step o) m) = delete i (ids m))
  ∨ ids (after (step o) m) = ids m.
Proof.
  unfold after, ids. destruct o as [t a y|id|id s]; cbn [step].
  - left. exists t, a, y. split; [done|]. rewrite add_book_run. simpl.
    by rewrite fmap_app.
  - destruct (decide (id ∈ book_id <$> books (lib m))) as [Hin|Hno].
    + destruct (first_with_id id _ Hin) as (l1 & b & l2 & Hbs & Hid & Hfirst).
      right. left. exists (length l1).
      rewrite (delete_book_found id m l1 l2 b Hbs Hid Hfirst). simpl.
      rewrite Hbs, <- list_fmap_delete. by rewrite delete_middle.
    + right. right. by rewrite delete_book_absent.
  - destruct (decide (id ∈ book_id <$> books (lib m))) as [Hin|Hno].
    + destruct (decide (s ∈ valid_statuses)) as [Hok|Hbad].
      * destruct (first_with_id id _ Hin) as (l1 & b & l2 & Hbs & Hid & Hfirst).
        right. right.
        rewrite (update_status_found id s m l1 l2 b Hbs Hid Hfirst Hok). simpl.
        by rewrite Hbs, !fmap_app, !fmap_cons.
      * right. right. by rewrite update_status_rejected.
    + right. right. by rewrite update_status_absent.
Qed.

Lemma step_NoDup (o : op) (m : machine) :
  NoDup (ids m) → NoDup (ids (after (step o) m)).
Proof.
  intros Hnd.
  destruct (step_ids o m) as [(t & a & y & _ & ->)|[[i ->]| ->]]; [| |done].
  - apply NoDup_app. split_and!; [done| |apply NoDup_singleton].
    intros x Hx ->%list_elem_of_singleton. by apply (new_id_fresh (ids m)).
  - eapply sublist_NoDup; [done|apply sublist_delete].
Qed.

Lemma step_positive (o : op) (m : machine) :
  Forall (λ i, 1 ≤ i) (ids m) → Forall (λ i, 1 ≤ i) (ids (after (step o) m)).
Proof.
  intros Hpos.
  destruct (step_ids o m) as [(t & a & y & _ & ->)|[[i ->]| ->]]; [| |done].
  - apply Forall_app. split; [done|]. apply Forall_singleton.
    destruct (ids m) as [|x xs] eqn:Hids; [done|].
    assert (Hin : py_max (x :: xs) 0 ∈ x :: xs) by by apply py_max_elem.
    rewrite Forall_forall in Hpos. apply Hpos in Hin. lia.
  - by apply Forall_delete.
Qed.

Lemma steps_cons (o : op) (os : list op) (m : machine) :
  after (steps (o :: os)) m = after (steps os) (after (step o) m).
Proof. unfold after. simpl. unfold bind_M. by destruct (step o m). Qed.

Lemma steps_invariant (P : machine → Prop) (os : list op) (m : machine) :
  (∀ o m', P m' → P (after (step o) m')) → P m → P (after (steps os) m).
Proof.
  intros Hstep. revert m. induction os as [|o os IH]; intros m Hm; [done|].
  rewrite steps_cons. by apply IH, Hstep.
Qed.

Lemma adds_ids (entries : list (string * string * Z)) (m : machine) (n : nat) :
  ids m = seqZ 1 (Z.of_nat n) →
  ids (after (steps (adds entries)) m)
  = seqZ 1 (Z.of_nat (n + length entries)).
Proof.
  revert m n. induction entries as [|[[t a] y] entries IH]; intros m n Hids.
  - unfold after. simpl. by rewrite Nat.add_0_r.
  - unfold adds. rewrite fmap_cons. fold (adds entries). rewrite steps_cons.
    rewrite (IH _ (S n)).
    + do 2 f_equal. simpl. lia.
    + unfold after, ids. cbn [step fst snd]. rewrite add_book_run.
      cbn [snd lib books]. rewrite fmap_app. fold (ids m).
      rewrite Hids, py_max_seqZ, seqZ_S. cbn [fmap list_fmap book_id].
      do 2 f_equal. lia.
Qed.

(** ** Persistence *)

(** C1. Saving a catalogue and then building a fresh [Library] on the same
    file gives back the same books: same ids, titles, authors, years and
    statuses, in the same order.  Every catalogue of the model has fields of
    the annotated types, so this holds for all of them.  Saving again from
    the fresh [Library] leaves the store as it is. *)
Theorem save_load_round_trip (m : machine) (out : list string) :
  let m' := after save_books m in
  let fresh := mkMachine (lib m) (disk m') out in
  Library_init (filename (lib m)) (disk m') out = Returns fresh
  ∧ books (lib fresh) = books (lib m)
  ∧ disk (after save_books fresh) = disk m'.
Proof.
  destruct m as [[name bs] d c]. unfold after, save_books, Library_init, load_books.
  simpl. rewrite read_books_saved. split_and!; [done..|].
  by rewrite insert_insert_eq.
Qed.

(** A missing file gives the empty catalogue. *)
Lemma init_missing_store (name : string) (d : gmap string file) (out : list string) :
  d !! name = None →
  Library_init name d out = Returns (mkMachine (mkLibrary name []) d out).
Proof.
  intros Hno. unfold Library_init, load_books, read_books, open_read.
  by rewrite Hno.
Qed.

(** So does a file whose text is not JSON. *)
Lemma init_malformed_store (name : string) (d : gmap string file) (out : list string) :
  d !! name = Some Malformed →
  Library_init name d out = Returns (mkMachine (mkLibrary name []) d out).
Proof.
  intros Hbad. unfold Library_init, load_books, read_books, open_read.
  by rewrite Hbad.
Qed.

(** The first book of an empty catalogue gets the id 1. *)
Lemma add_book_first (name : string) (d : gmap string file) (out : list string)
    (t a : string) (y : Z) :
  books (lib (after (add_book t a y) (mkMachine (mkLibrary name []) d out)))
  = [mkBook 1 t a y default_status].
Proof. reflexivity. Qed.

(** C2. The constructor lets through what its [except] clause does not
    name.  A store that holds well-formed JSON of another shape than a list
    of complete records makes the construction of a [Library] raise: a
    record without its title gives [KeyError], a dict or a number in place
    of the list gives [TypeError], and bytes that are no UTF-8 text give
    [UnicodeDecodeError]. *)
Theorem init_raises_on_unexpected_store :
  Library_init "library.json"
    {[ "library.json" := Document (JList [JObj {[ "id" := JInt 1 ]}]) ]} []
  = Raises (KeyError "title")
  ∧ Library_init "library.json"
      {[ "library.json" := Document (JObj {[ "books" := JList [] ]}) ]} []
    = Raises TypeError
  ∧ Library_init "library.json" {[ "library.json" := Document (JInt 42) ]} []
    = Raises TypeError
  ∧ Library_init "library.json" {[ "library.json" := Undecodable ]} []
    = Raises UnicodeDecodeError.
Proof. repeat split; vm_compute; reflexivity. Qed.

(** ** add_book *)

(** C3, as stated, fails.  [add_book] has no [return]: the caller gets
    [None], not the record.  And after the book with the highest id, 3, is
    deleted from a catalogue with the ids 1 and 3, the next book gets the
    id 2, not 3. *)
Lemma add_book_counterexample :
  ids machine_1_3 = [1; 3]
  ∧ result_of (add_book "Idiot" "Dostoevsky" 1869) machine_1_3 = PyNone
  ∧ result_of (add_book "Idiot" "Dostoevsky" 1869) machine_1_3
    ≠ PyBook (mkBook 4 "Idiot" "Dostoevsky" 1869 default_status)
  ∧ ids (after (run delete_book 3; add_book "Idiot" "Dostoevsky" 1869) machine_1_3)
    = [1; 2]
  ∧ ids (after (run delete_book 3; add_book "Idiot" "Dostoevsky" 1869) machine_1_3)
    ≠ [1; 3].
Proof. by vm_compute. Qed.

(** C3, amended.  [add_book] numbers the new book one above the greatest id
    in the catalogue (above 0 when the catalogue is empty), gives it the
    status "в наличии", appends it, saves the whole catalogue, prints a line
    that carries the id and returns [None].  When the book just added is
    deleted, the next book added gets its id again. *)
Theorem add_book_spec (m : machine) (t a : string) (y : Z)
    (t' a' : string) (y' : Z) :
  let new_id := py_max (ids m) 0 + 1 in
  let new_book := mkBook new_id t a y default_status in
  let m' := after (add_book t a y) m in
  result_of (add_book t a y) m = PyNone
  ∧ books (lib m') = books (lib m) ++ [new_book]
  ∧ filename (lib m') = filename (lib m)
  ∧ disk m' = saved m (books (lib m) ++ [new_book])
  ∧ console m' = console m ++ [msg_added new_id]
  ∧ (new_id ∉ ids m)
  ∧ Forall (λ i, i < new_id) (ids m)
  ∧ (ids m = [] → new_id = 1)
  ∧ (ids m ≠ [] → new_id - 1 ∈ ids m)
  ∧ books (lib (after (run delete_book new_id; add_book t' a' y') m'))
    = books (lib m) ++ [mkBook new_id t' a' y' default_status].
Proof.
  intros new_id new_book m'. unfold result_of, after in *.
  subst m'. rewrite add_book_run. simpl. fold new_id new_book.
  split_and!; try done.
  - apply new_id_fresh.
  - apply Forall_forall. intros i Hi%(py_max_upper _ 0). unfold new_id. lia.
  - unfold new_id. by intros ->.
  - intros Hne. unfold new_id.
    replace (py_max (ids m) 0 + 1 - 1) with (py_max (ids m) 0) by lia.
    by apply py_max_elem.
  - unfold bind_M.
    erewrite (delete_book_found new_id _ (books (lib m)) [] new_book);
      [|by simpl|done|apply new_id_fresh].
    rewrite add_book_run. simpl. by rewrite app_nil_r.
Qed.

Lemma add_book_spec_witness :
  py_max (ids empty_machine) 0 + 1 = 1
  ∧ py_max (ids one_book) 0 + 1 - 1 ∈ ids one_book.
Proof.
  split.
  - destruct (add_book_spec empty_machine "Idiot" "Dostoevsky" 1869
                "Demons" "Dostoevsky" 1872) as (_&_&_&_&_&_&_&Hempty&_).
    by apply Hempty.
  - destruct (add_book_spec one_book "Idiot" "Dostoevsky" 1869
                "Demons" "Dostoevsky" 1872) as (_&_&_&_&_&_&_&_&Hmax&_).
    apply Hmax. by vm_compute.
Defined.

(** ** update_status *)

(** C4, as stated, fails.  The method looks for the book before it looks at
    the status: with an id that is not in the catalogue and a status that is
    not allowed, what it reports is the missing book, not the status.  It
    raises nothing and returns [None]. *)
Lemma update_status_counterexample :
  ids one_book = [1]
  ∧ ("потеряна" ∉ valid_statuses)
  ∧ update_status 2 "потеряна" one_book
    = (PyNone,
       mkMachine (lib one_book) (disk one_book)
                 (console one_book ++ [msg_not_found 2]))
  ∧ msg_not_found 2 ≠ msg_bad_status.
Proof.
  split_and!; [by vm_compute | | by vm_compute | by vm_compute].
  rewrite valid_statuses_elem. by intros [?|?].
Qed.

(** C4, amended.  [update_status] first looks for the first book with the
    id.  When there is none, it prints that the book was not found, whatever
    the status asked for.  When there is one and the status is neither
    "в наличии" nor "выдана", it prints that the status is not allowed.  In
    both cases the catalogue and the store stay as they are.  Otherwise the
    status of that book is set, the catalogue is saved and a confirmation is
    printed.  The method raises nothing and always returns [None]. *)
Theorem update_status_spec (m : machine) (id : Z) (s : string) :
  let m' := after (update_status id s) m in
  result_of (update_status id s) m = PyNone
  ∧ (id ∉ ids m →
     lib m' = lib m ∧ disk m' = disk m
     ∧ console m' = console m ++ [msg_not_found id])
  ∧ (id ∈ ids m → s ∉ valid_statuses →
     lib m' = lib m ∧ disk m' = disk m
     ∧ console m' = console m ++ [msg_bad_status])
  ∧ (id ∈ ids m → s ∈ valid_statuses →
     ∃ l1 b l2,
       books (lib m) = l1 ++ b :: l2 ∧ book_id b = id ∧ (id ∉ book_id <$> l1)
       ∧ books (lib m') = l1 ++ with_status b s :: l2
       ∧ filename (lib m') = filename (lib m)
       ∧ disk m' = saved m (l1 ++ with_status b s :: l2)
       ∧ console m' = console m ++ [msg_status_updated id]).
Proof.
  intros m'. subst m'. unfold result_of, after.
  destruct (decide (id ∈ ids m)) as [Hin|Hno].
  - destruct (decide (s ∈ valid_statuses)) as [Hok|Hbad].
    + destruct (first_with_id id _ Hin) as (l1 & b & l2 & Hbs & Hid & Hfirst).
      rewrite (update_status_found id s m l1 l2 b Hbs Hid Hfirst Hok). simpl.
      split_and!; [done..|]. intros _ _. by exists l1, b, l2.
    + rewrite (update_status_rejected id s m Hin Hbad). simpl.
      by split_and!.
  - rewrite (update_status_absent id s m Hno). simpl. by split_and!.
Qed.

Lemma update_status_spec_witness :
  (lib (after (update_status 2 "выдана") one_book) = lib one_book
   ∧ disk (after (update_status 2 "выдана") one_book) = disk one_book
   ∧ console (after (update_status 2 "выдана") one_book)
     = console one_book ++ [msg_not_found 2])
  ∧ (lib (after (update_status 1 "потеряна") one_book) = lib one_book
     ∧ disk (after (update_status 1 "потеряна") one_book) = disk one_book
     ∧ console (after (update_status 1 "потеряна") one_book)
       = console one_book ++ [msg_bad_status])
  ∧ (∃ l1 b l2,
       books (lib one_book) = l1 ++ b :: l2 ∧ book_id b = 1
       ∧ (1 ∉ book_id <$> l1)
       ∧ books (lib (after (update_status 1 "выдана") one_book))
         = l1 ++ with_status b "выдана" :: l2
       ∧ filename (lib (after (update_status 1 "выдана") one_book))
         = filename (lib one_book)
       ∧ disk (after (update_status 1 "выдана") one_book)
         = saved one_book (l1 ++ with_status b "выдана" :: l2)
       ∧ console (after (update_status 1 "выдана") one_book)
         = console one_book ++ [msg_status_updated 1]).
Proof.
  assert (Hin : 1 ∈ ids one_book) by (vm_compute; by left).
  assert (Hno : 2 ∉ ids one_book)
    by (vm_compute; by intros ?%list_elem_of_singleton).
  split; [|split].
  - by apply (proj1 (proj2 (update_status_spec one_book 2 "выдана"))).
  - apply (proj1 (proj2 (proj2 (update_status_spec one_book 1 "потеряна"))));
      [done|].
    rewrite valid_statuses_elem. by intros [?|?].
  - apply (proj2 (proj2 (proj2 (update_status_spec one_book 1 "выдана"))));
      [done|].
    rewrite valid_statuses_elem. by right.
Defined.

(** ** delete_book *)

(** C5, as stated, fails.  [delete_book] returns [None] whether it found the
    book or not: no boolean tells the two runs apart. *)
Lemma delete_book_counterexample :
  ids one_book = [1]
  ∧ ids (after (delete_book 1) one_book) = []
  ∧ result_of (delete_book 1) one_book = PyNone
  ∧ result_of (delete_book 1) one_book ≠ PyBool true
  ∧ result_of (delete_book 2) one_book = PyNone
  ∧ result_of (delete_book 2) one_book ≠ PyBool false.
Proof. by vm_compute. Qed.

(** C5, amended.  [delete_book] looks for the first book with the id.  When
    there is one, it is taken out where it stands, the catalogue is saved
    and a confirmation is printed.  When there is none, the catalogue and
    the store stay as they are and a notice is printed.  Either way the
    method returns [None]. *)
Theorem delete_book_spec (m : machine) (id : Z) :
  let m' := after (delete_book id) m in
  result_of (delete_book id) m = PyNone
  ∧ (id ∈ ids m →
     ∃ l1 b l2,
       books (lib m) = l1 ++ b :: l2 ∧ book_id b = id ∧ (id ∉ book_id <$> l1)
       ∧ books (lib m') = l1 ++ l2
       ∧ filename (lib m') = filename (lib m)
       ∧ disk m' = saved m (l1 ++ l2)
       ∧ console m' = console m ++ [msg_deleted id])
  ∧ (id ∉ ids m →
     lib m' = lib m ∧ disk m' = disk m
     ∧ console m' = console m ++ [msg_not_found id]).
Proof.
  intros m'. subst m'. unfold result_of, after.
  destruct (decide (id ∈ ids m)) as [Hin|Hno].
  - destruct (first_with_id id _ Hin) as (l1 & b & l2 & Hbs & Hid & Hfirst).
    rewrite (delete_book_found id m l1 l2 b Hbs Hid Hfirst). simpl.
    split_and!; [done| |done]. intros _. by exists l1, b, l2.
  - rewrite (delete_book_absent id m Hno). simpl. by split_and!.
Qed.

Lemma delete_book_spec_witness :
  (∃ l1 b l2,
      books (lib one_book) = l1 ++ b :: l2 ∧ book_id b = 1 ∧ (1 ∉ book_id <$> l1)
      ∧ books (lib (after (delete_book 1) one_book)) = l1 ++ l2
      ∧ filename (lib (after (delete_book 1) one_book)) = filename (lib one_book)
      ∧ disk (after (delete_book 1) one_book) = saved one_book (l1 ++ l2)
      ∧ console (after (delete_book 1) one_book)
        = console one_book ++ [msg_deleted 1])
  ∧ (lib (after (delete_book 2) one_book) = lib one_book
     ∧ disk (after (delete_book 2) one_book) = disk one_book
     ∧ console (after (delete_book 2) one_book)
       = console one_book ++ [msg_not_found 2]).
Proof.
  split.
  - apply (proj1 (proj2 (delete_book_spec one_book 1))).
    vm_compute. by left.
  - apply (proj2 (proj2 (delete_book_spec one_book 2))).
    vm_compute. by intros ?%list_elem_of_singleton.
Defined.

(** ** search_books *)

(** C6, as stated, fails.  The books have no attribute "genre"; the search
    by it with the empty text selects every book, and prints it.  The
    attribute "book_id" is outside the four fields of the claim, and the
    search by it selects the book with that id.  And a search by the name
    "self" does not run at all: the call raises [TypeError]. *)
Lemma search_unknown_field_counterexample :
  search_results ascii_lower no_class_attr [("genre", VStr "")]
    (books (lib one_book))
  = [mkBook 1 "War and Peace" "Tolstoy" 1869 default_status]
  ∧ search_results ascii_lower no_class_attr [("genre", VStr "")]
      (books (lib one_book)) ≠ []
  ∧ search_books ascii_lower no_class_attr [("genre", VStr "")] one_book
    = Returns (PyNone,
        mkMachine (lib one_book) (disk one_book)
          (console one_book
           ++ [book_line (mkBook 1 "War and Peace" "Tolstoy" 1869 default_status)]))
  ∧ search_results ascii_lower no_class_attr [("book_id", VInt 1)]
      (books (lib one_book))
    = [mkBook 1 "War and Peace" "Tolstoy" 1869 default_status]
  ∧ search_books ascii_lower no_class_attr [("self", VStr "Tolstoy")] one_book
    = Raises TypeError.
Proof. by vm_compute. Qed.

(** C6, amended.  For a name other than "self" that is no attribute of the
    books, [search_books] raises nothing: it compares the empty text with
    the text of the value, so it selects no book when that text is not empty
    and every book when it is, prints accordingly and returns [None]. *)
Theorem search_unknown_field (lower : string → string)
    (class_attr : Book → string → option string)
    (key : string) (v : pyval) (m : machine) :
  lower_spec lower →
  key ≠ "self" →
  key ∉ data_attributes →
  (∀ book, book ∈ books (lib m) → class_attr book key = None) →
  let selected := if decide (py_str v = "") then books (lib m) else [] in
  search_results lower class_attr [(key, v)] (books (lib m)) = selected
  ∧ search_books lower class_attr [(key, v)] m
    = Returns (PyNone,
        mkMachine (lib m) (disk m) (console m ++ search_lines selected)).
Proof.
  intros Hlower Hself Hkey Hnone selected.
  assert (Hsel : search_results lower class_attr [(key, v)] (books (lib m))
                 = selected).
  { rewrite search_results_one. subst selected. case_decide as Hv.
    - apply filter_all. intros book Hbook.
      by rewrite getattr_str_default, Hv by auto.
    - apply filter_none. intros book Hbook Heq. apply Hv.
      rewrite getattr_str_default in Heq by auto.
      apply (lower_nonempty _ Hlower). rewrite <- Heq.
      by rewrite (lower_ascii _ Hlower). }
  split; [done|]. rewrite search_books_run, Hsel; [done|].
  by intros ?%list_elem_of_singleton.
Qed.

Lemma search_unknown_field_witness :
  search_results ascii_lower no_class_attr [("genre", VStr "novel")]
    (books (lib one_book)) = []
  ∧ search_books ascii_lower no_class_attr [("genre", VStr "novel")] one_book
    = Returns (PyNone,
        mkMachine (lib one_book) (disk one_book)
                  (console one_book ++ [msg_no_results])).
Proof.
  apply (search_unknown_field ascii_lower no_class_attr "genre" (VStr "novel")
           one_book ascii_lower_spec).
  - done.
  - unfold data_attributes. rewrite !not_elem_of_cons.
    by split_and!; [..|apply not_elem_of_nil].
  - reflexivity.
Defined.

(** C7, as stated, fails.  A search that finds a book prints it and returns
    [None]: no sequence of records comes back to the caller. *)
Lemma search_books_counterexample :
  search_results ascii_lower no_class_attr [("author", VStr "tolstoy")]
    (books (lib one_book))
  = [mkBook 1 "War and Peace" "Tolstoy" 1869 default_status]
  ∧ search_books ascii_lower no_class_attr [("author", VStr "tolstoy")] one_book
    = Returns (PyNone,
        mkMachine (lib one_book) (disk one_book)
          (console one_book
           ++ [book_line (mkBook 1 "War and Peace" "Tolstoy" 1869 default_status)]))
  ∧ search_books ascii_lower no_class_attr [("author", VStr "tolstoy")] one_book
    ≠ Returns (PyBooks [mkBook 1 "War and Peace" "Tolstoy" 1869 default_status],
        mkMachine (lib one_book) (disk one_book)
          (console one_book
           ++ [book_line (mkBook 1 "War and Peace" "Tolstoy" 1869 default_status)])).
Proof. by vm_compute. Qed.

(** C7, amended.  For each of the fields title, author, year and status,
    [search_books] selects the books whose field, turned into text and
    lowered, is equal to the value turned into text and lowered: the whole
    text has to agree, not a part of it.  It prints them in the order of the
    catalogue, or a notice when there is none, and returns [None].  The
    searches for the authors "Tolstoy" and "tolstoy" select and print the
    same. *)
Theorem search_by_field (lower : string → string)
    (class_attr : Book → string → option string)
    (f : field) (v : pyval) (m : machine) :
  lower_spec lower →
  let selected :=
    filter (λ book, lower (py_str (field_value f book)) = lower (py_str v))
           (books (lib m)) in
  search_results lower class_attr [(field_name f, v)] (books (lib m)) = selected
  ∧ selected `sublist_of` books (lib m)
  ∧ search_books lower class_attr [(field_name f, v)] m
    = Returns (PyNone,
        mkMachine (lib m) (disk m) (console m ++ search_lines selected))
  ∧ search_results lower class_attr [("author", VStr "Tolstoy")] (books (lib m))
    = search_results lower class_attr [("author", VStr "tolstoy")] (books (lib m))
  ∧ search_books lower class_attr [("author", VStr "Tolstoy")] m
    = search_books lower class_attr [("author", VStr "tolstoy")] m.
Proof.
  intros Hlower selected.
  assert (Hsel : search_results lower class_attr [(field_name f, v)]
                   (books (lib m)) = selected).
  { rewrite search_results_one. apply list_filter_iff. intros book.
    by rewrite getattr_str_field. }
  assert (Hcase : ∀ bs,
             search_results lower class_attr [("author", VStr "Tolstoy")] bs
             = search_results lower class_attr [("author", VStr "tolstoy")] bs).
  { intros bs. rewrite !search_results_one. simpl.
    by rewrite !(lower_ascii _ Hlower) by done. }
  split_and!.
  - done.
  - apply sublist_filter.
  - rewrite search_books_run, Hsel; [done|]. apply field_name_not_self.
  - apply Hcase.
  - rewrite !search_books_run, Hcase; [done|apply (field_name_not_self Author)..].
Qed.

Lemma search_by_field_witness :
  search_results ascii_lower no_class_attr [("author", VStr "TOLSTOY")]
    (books (lib one_book))
  = filter (λ book, ascii_lower (py_str (field_value Author book))
                    = ascii_lower "TOLSTOY")
           (books (lib one_book)).
Proof.
  exact (proj1 (search_by_field ascii_lower no_class_attr Author
                  (VStr "TOLSTOY") one_book ascii_lower_spec)).
Defined.

(** The comparison is of whole texts: a part of the name finds nothing. *)
Example search_is_not_by_substring :
  search_results ascii_lower no_class_attr [("author", VStr "Tol")]
    (books (lib one_book)) = []
  ∧ search_results ascii_lower no_class_attr [("year", VInt 1869)]
      (books (lib one_book)) = books (lib one_book)
  ∧ search_results ascii_lower no_class_attr [("year", VStr "1869")]
      (books (lib one_book)) = books (lib one_book).
Proof. by vm_compute. Qed.

(** ** The ids of a catalogue *)

(** C8. The ids of a catalogue stay pairwise distinct under every call that
    changes it.  After any sequence of such calls on a catalogue that
    started empty the ids are pairwise distinct and positive, and an
    [add_book] made then gives the new book an id not in use: one above the
    greatest id present, 1 when there is none.  A sequence of n calls of
    [add_book] alone hands out the ids 1, 2, ..., n. *)
Theorem ids_pairwise_distinct :
  (∀ o m, NoDup (ids m) → NoDup (ids (after (step o) m)))
  ∧ (∀ name d out os,
      let m := after (steps os) (mkMachine (mkLibrary name []) d out) in
      NoDup (ids m)
      ∧ Forall (λ i, 1 ≤ i) (ids m)
      ∧ ∀ t a y,
          let new_id := py_max (ids m) 0 + 1 in
          ids (after (add_book t a y) m) = ids m ++ [new_id]
          ∧ (new_id ∉ ids m)
          ∧ Forall (λ i, i < new_id) (ids m)
          ∧ (ids m = [] → new_id = 1)
          ∧ (ids m ≠ [] → new_id - 1 ∈ ids m)
          ∧ NoDup (ids (after (add_book t a y) m)))
  ∧ ∀ name d out entries,
      ids (after (steps (adds entries)) (mkMachine (mkLibrary name []) d out))
      = seqZ 1 (Z.of_nat (length entries)).
Proof.
  split; [intros o m; apply step_NoDup|].
  split; [|intros name d out entries; by apply (adds_ids entries _ 0%nat)].
  intros name d out os m.
  assert (Hnd : NoDup (ids m)).
  { apply (steps_invariant (λ m, NoDup (ids m)));
      [intros o m'; apply step_NoDup | constructor]. }
  split_and!; [done| |].
  - apply (steps_invariant (λ m, Forall (λ i, 1 ≤ i) (ids m)));
      [intros o m'; apply step_positive | constructor].
  - intros t a y new_id. split_and!.
    + unfold after, ids. rewrite add_book_run. simpl. by rewrite fmap_app.
    + apply new_id_fresh.
    + apply Forall_forall. intros i Hi%(py_max_upper _ 0). unfold new_id. lia.
    + unfold new_id. by intros ->.
    + intros Hne. unfold new_id.
      replace (py_max (ids m) 0 + 1 - 1) with (py_max (ids m) 0) by lia.
      by apply py_max_elem.
    + by apply (step_NoDup (Add t a y)).
Qed.

Lemma ids_pairwise_distinct_witness :
  NoDup (ids (after (step (Delete 1)) machine_1_3)).
Proof.
  apply (proj1 ids_pairwise_distinct).
  apply (bool_decide_unpack _). by vm_compute.
Defined.

(** ** What reaches the store *)

(** C9. [search_books] and [display_books] leave the catalogue and the store
    as they are: all they do is print (a search that Python refuses for its
    keyword [self] does not even start).  So do a [delete_book] that finds
    no book and an [update_status] that finds no book or is given a status
    that is not allowed.  [add_book], and a [delete_book] or [update_status]
    that goes through, write the new catalogue to the store. *)
Theorem read_only_frame (lower : string → string)
    (class_attr : Book → string → option string)
    (kwargs : list (string * pyval)) (arg : option (list Book)) (m : machine) :
  (search_books lower class_attr kwargs m = Raises TypeError
   ∨ ∃ lines, search_books lower class_attr kwargs m
              = Returns (PyNone,
                  mkMachine (lib m) (disk m) (console m ++ lines)))
  ∧ (lib (after (display_books arg) m) = lib m
     ∧ disk (after (display_books arg) m) = disk m)
  ∧ (∀ id, id ∉ ids m →
       lib (after (delete_book id) m) = lib m
       ∧ disk (after (delete_book id) m) = disk m)
  ∧ (∀ id s, id ∉ ids m ∨ s ∉ valid_statuses →
       lib (after (update_status id s) m) = lib m
       ∧ disk (after (update_status id s) m) = disk m)
  ∧ (∀ t a y,
       disk (after (add_book t a y) m)
       = saved m (books (lib (after (add_book t a y) m))))
  ∧ (∀ id, id ∈ ids m →
       disk (after (delete_book id) m)
       = saved m (books (lib (after (delete_book id) m))))
  ∧ (∀ id s, id ∈ ids m → s ∈ valid_statuses →
       disk (after (update_status id s) m)
       = saved m (books (lib (after (update_status id s) m)))).
Proof.
  unfold after. split; [|split_and!].
  - destruct (decide ("self" ∈ kwargs.*1)) as [Hself|Hself].
    + left. unfold search_books. by rewrite decide_True.
    + right. eexists. by apply search_books_run.
  - by rewrite display_books_run.
  - by rewrite display_books_run.
  - intros id Hno. by rewrite delete_book_absent.
  - intros id s Hcase. destruct (decide (id ∈ ids m)) as [Hin|Hno].
    + destruct Hcase as [?|Hbad]; [done|]. by rewrite update_status_rejected.
    + by rewrite update_status_absent.
  - intros t a y. by rewrite add_book_run.
  - intros id Hin.
    destruct (first_with_id id _ Hin) as (l1 & b & l2 & Hbs & Hid & Hfirst).
    by rewrite (delete_book_found id m l1 l2 b).
  - intros id s Hin Hok.
    destruct (first_with_id id _ Hin) as (l1 & b & l2 & Hbs & Hid & Hfirst).
    by rewrite (update_status_found id s m l1 l2 b).
Qed.

Lemma read_only_frame_witness :
  lib (after (delete_book 2) one_book) = lib one_book
  ∧ disk (after (delete_book 2) one_book) = disk one_book.
Proof.
  apply (proj1 (proj2 (proj2
           (read_only_frame ascii_lower no_class_attr [] None one_book))) 2).
  apply (bool_decide_unpack _). by vm_compute.
Defined.

(** ** Several criteria *)

(** C10. [search_books] takes any number of criteria at once and selects
    the books of the catalogue that meet all of them, in the order of the
    catalogue.  For criteria on the fields title, author, year and status
    the test is on the book itself: the text of the book's field, lowered,
    is equal to the text of the value, lowered; the books selected are those
    that pass this test for every criterion, and they are what is printed,
    or a notice when there is none.  Two calls whose values agree once
    lowered select the same books.  For keywords of any name the selection
    is likewise the filter by all the comparisons of the body.  Without
    criteria the whole catalogue is selected.  The criteria are the
    keywords Python lets through to the body, which leaves out the name
    [self]. *)
Theorem search_conjunction (lower : string → string)
    (class_attr : Book → string → option string)
    (kwargs : list (string * pyval)) (query : list (field * pyval))
    (m : machine) :
  "self" ∉ kwargs.*1 →
  let keywords (q : list (field * pyval)) :=
    (λ fv, (field_name fv.1, fv.2)) <$> q in
  let by_field :=
    filter (λ book,
              Forall (λ fv, lower (py_str (field_value fv.1 book))
                            = lower (py_str fv.2)) query)
           (books (lib m)) in
  let selected :=
    filter (λ book,
              Forall (λ kv, lower (getattr_str class_attr book kv.1)
                            = lower (py_str kv.2)) kwargs)
           (books (lib m)) in
  (search_results lower class_attr (keywords query) (books (lib m)) = by_field
   ∧ by_field `sublist_of` books (lib m)
   ∧ (∀ book, book ∈ by_field ↔
        book ∈ books (lib m)
        ∧ ∀ f v, (f, v) ∈ query →
                 lower (py_str (field_value f book)) = lower (py_str v))
   ∧ search_books lower class_attr (keywords query) m
     = Returns (PyNone,
         mkMachine (lib m) (disk m) (console m ++ search_lines by_field))
   ∧ ∀ query',
       Forall2 (λ fv fv', fv.1 = fv'.1
                          ∧ lower (py_str fv.2) = lower (py_str fv'.2))
               query query' →
       search_results lower class_attr (keywords query') (books (lib m))
       = by_field)
  ∧ search_results lower class_attr kwargs (books (lib m)) = selected
  ∧ selected `sublist_of` books (lib m)
  ∧ search_books lower class_attr kwargs m
    = Returns (PyNone,
        mkMachine (lib m) (disk m) (console m ++ search_lines selected))
  ∧ search_results lower class_attr [] (books (lib m)) = books (lib m)
  ∧ search_books lower class_attr [] m
    = Returns (PyNone,
        mkMachine (lib m) (disk m) (console m ++ search_lines (books (lib m)))).
Proof.
  intros Hself keywords by_field selected.
  assert (Hsel : search_results lower class_attr kwargs (books (lib m))
                 = selected) by apply search_results_filter.
  assert (Hfield : ∀ q,
             search_results lower class_attr (keywords q) (books (lib m))
             = filter (λ book,
                         Forall (λ fv, lower (py_str (field_value fv.1 book))
                                       = lower (py_str fv.2)) q)
                      (books (lib m))).
  { intros q. rewrite search_results_filter. apply list_filter_iff.
    intros book. subst keywords. cbn beta. rewrite Forall_fmap.
    apply Forall_proper; [|done]. intros [f v]. unfold criterion. simpl.
    by rewrite getattr_str_field. }
  assert (Hnames : ∀ q, "self" ∉ (keywords q).*1).
  { intros q. subst keywords. cbn beta. rewrite <- list_fmap_compose.
    intros ([f v] & Heq & _)%list_elem_of_fmap. simpl in Heq.
    by destruct f. }
  split; [split_and!|split_and!].
  - apply Hfield.
  - apply sublist_filter.
  - intros book. subst by_field. rewrite list_elem_of_filter, Forall_forall.
    split.
    + intros [Hall Hin]. split; [done|].
      intros f v Hfv. apply (Hall (f, v) Hfv).
    + intros [Hin Hall]. split; [|done].
      intros [f v] Hfv. by apply Hall.
  - rewrite search_books_run by apply Hnames. by rewrite Hfield.
  - intros query' Hsame. rewrite Hfield. apply list_filter_iff. intros book.
    clear -Hsame. induction Hsame as [|[f v] [f' v'] q q' [Hf Hv] _ IH].
    + done.
    + rewrite !Forall_cons, IH. simpl in *. subst f'. by rewrite Hv.
  - exact Hsel.
  - apply sublist_filter.
  - by rewrite search_books_run, Hsel.
  - reflexivity.
  - apply search_books_run. apply not_elem_of_nil.
Qed.

Lemma search_conjunction_witness :
  search_results ascii_lower no_class_attr
    [("author", VStr "TOLSTOY"); ("year", VInt 1877)] (books (lib machine_1_3))
  = filter (λ book,
              Forall (λ fv, ascii_lower (py_str (field_value fv.1 book))
                            = ascii_lower (py_str fv.2))
                     [(Author, VStr "TOLSTOY"); (Year, VInt 1877)])
           (books (lib machine_1_3))
  ∧ search_results ascii_lower no_class_attr
      [("author", VStr "tolstoy"); ("year", VStr "1877")]
      (books (lib machine_1_3))
    = search_results ascii_lower no_class_attr
        [("author", VStr "TOLSTOY"); ("year", VInt 1877)]
        (books (lib machine_1_3)).
Proof.
  pose proof (search_conjunction ascii_lower no_class_attr []
                [(Author, VStr "TOLSTOY"); (Year, VInt 1877)] machine_1_3
                (not_elem_of_nil _)) as [(Hsel & _ & _ & _ & Hcase) _].
  split; [exact Hsel|].
  etransitivity; [|symmetry; exact Hsel].
  apply (Hcase [(Author, VStr "tolstoy"); (Year, VStr "1877")]).
  repeat constructor.
Defined.

Example search_two_criteria :
  search_results ascii_lower no_class_attr
    [("author", VStr "TOLSTOY"); ("year", VInt 1877)] (books (lib machine_1_3))
  = [mkBook 1 "Anna Karenina" "Tolstoy" 1877 default_status]
  ∧ search_results ascii_lower no_class_attr
      [("author", VStr "TOLSTOY"); ("year", VInt 1859)] (books (lib machine_1_3))
    = [].
Proof. by vm_compute. Qed.

(** ** A session *)

(** One book is added to an empty catalogue, lent out, found by its status,
    deleted, and then found no more. *)
Example session :
  let m1 := after (add_book "War and Peace" "Tolstoy" 1869) empty_machine in
  let m2 := after (update_status 1 "выдана") m1 in
  let m3 := after (delete_book 1) m2 in
  books (lib m1) = [mkBook 1 "War and Peace" "Tolstoy" 1869 "в наличии"]
  ∧ books (lib m2) = [mkBook 1 "War and Peace" "Tolstoy" 1869 "выдана"]
  ∧ search_results ascii_lower no_class_attr [("status", VStr "выдана")]
      (books (lib m2))
    = [mkBook 1 "War and Peace" "Tolstoy" 1869 "выдана"]
  ∧ books (lib m3) = []
  ∧ console (after (display_books None) m3) = console m3 ++ [msg_empty]
  ∧ console (after (delete_book 1) m3) = console m3 ++ [msg_not_found 1]
  ∧ Library_init "library.json" (disk m2) []
    = Returns (mkMachine (lib m2) (disk m2) []).
Proof. by vm_compute. Qed.

(** * Further properties *)

(** ** The store follows the memory *)

(** A call that changes the catalogue either leaves the object and the store
    alone, or writes to the store the very catalogue it leaves in memory.
    It prints one line and keeps the file name. *)
Lemma step_writes_through (o : op) (m : machine) :
  (∃ line, after (step o) m
           = mkMachine (lib m) (disk m) (console m ++ [line]))
  ∨ (∃ bs line, after (step o) m
                = mkMachine (mkLibrary (filename (lib m)) bs) (saved m bs)
                            (console m ++ [line])).
Proof.
  unfold after. destruct o as [t a y|id|id s]; cbn [step].
  - right. rewrite add_book_run. simpl. eauto.
  - destruct (decide (id ∈ ids m)) as [Hin|Hno].
    + destruct (first_with_id id _ Hin) as (l1 & b & l2 & Hbs & Hid & Hfirst).
      right. rewrite (delete_book_found id m l1 l2 b Hbs Hid Hfirst). simpl. eauto.
    + left. rewrite delete_book_absent by done. simpl. eauto.
  - destruct (decide (id ∈ ids m)) as [Hin|Hno].
    + destruct (decide (s ∈ valid_statuses)) as [Hok|Hbad].
      * destruct (first_with_id id _ Hin) as (l1 & b & l2 & Hbs & Hid & Hfirst).
        right. rewrite (update_status_found id s m l1 l2 b Hbs Hid Hfirst Hok).
        simpl. eauto.
      * left. rewrite update_status_rejected by done. simpl. eauto.
    + left. rewrite update_status_absent by done. simpl. eauto.
Qed.

Lemma step_filename (o : op) (m : machine) :
  filename (lib (after (step o) m)) = filename (lib m).
Proof.
  destruct (step_writes_through o m) as [[line ->]|(bs & line & ->)]; done.
Qed.

Lemma step_in_sync (o : op) (m : machine) :
  in_sync m → in_sync (after (step o) m).
Proof.
  intros Hsync.
  destruct (step_writes_through o m) as [[line ->]|(bs & line & ->)]; [done|].
  unfold in_sync, load_books, saved. simpl. by rewrite read_books_saved.
Qed.

Lemma Library_init_in_sync (name : string) (d : gmap string file)
    (out : list string) (m : machine) :
  Library_init name d out = Returns m →
  in_sync m ∧ filename (lib m) = name ∧ disk m = d ∧ console m = out.
Proof.
  unfold Library_init, in_sync.
  destruct (load_books name d) as [bs| |] eqn:Hload; simpl; [|done..].
  by intros [= <-].
Qed.

(** X1. Stopping and starting again loses nothing.  Once a [Library] has
    been built on a file, after any sequence of [add_book], [delete_book] and
    [update_status] calls a fresh [Library] on the same file loads exactly
    the books that are in memory, in the same order. *)
Theorem restart_keeps_catalogue (name : string) (d : gmap string file)
    (out out' : list string) (m : machine) (os : list op) :
  Library_init name d out = Returns m →
  let m' := after (steps os) m in
  Library_init name (disk m') out'
  = Returns (mkMachine (lib m') (disk m') out').
Proof.
  intros (Hsync & Hname & _)%Library_init_in_sync m'.
  assert (Hinv : in_sync m' ∧ filename (lib m') = name).
  { subst m'. apply (steps_invariant
                       (λ m, in_sync m ∧ filename (lib m) = name)); [|done].
    intros o m0 [Hs Hn]. split; [by apply step_in_sync|].
    by rewrite step_filename. }
  destruct Hinv as [Hs Hn]. unfold Library_init, in_sync in *.
  rewrite Hn in Hs. rewrite Hs. simpl. destruct (lib m'). simpl in *. by subst.
Qed.

Lemma restart_keeps_catalogue_witness :
  Library_init "library.json" (disk machine_1_3) []
  = Returns (mkMachine (lib machine_1_3) (disk machine_1_3) []).
Proof.
  apply (restart_keeps_catalogue "library.json" ∅ [] [] empty_machine
           [Add "Anna Karenina" "Tolstoy" 1877; Add "Dead Souls" "Gogol" 1842;
            Add "Oblomov" "Goncharov" 1859; Delete 2]).
  reflexivity.
Defined.

(** ** Decoding records *)

Lemma from_dict_lookups (d : gmap string json) :
  from_dict (JObj d)
  = try i <- getitem (JObj d) "id";
    try t <- getitem (JObj d) "title";
    try a <- getitem (JObj d) "author";
    try y <- getitem (JObj d) "year";
    try s <- getitem (JObj d) "status";
    Book_of_json i t a y s.
Proof. reflexivity. Qed.

(** X2. [from_dict] reads the five keys of a record and nothing else: a key
    of any other name in a record of the store changes nothing to what is
    loaded.  [to_dict] writes these five keys and no other, so such a key is
    gone from the store after the next save. *)
Theorem from_dict_reads_five_keys (d : gmap string json) (k : string)
    (v : json) (b : Book) :
  k ∉ record_keys →
  from_dict (JObj (<[k := v]> d)) = from_dict (JObj d)
  ∧ ∃ written, to_dict b = JObj written
               ∧ dom written = list_to_set record_keys
               ∧ written !! k = None.
Proof.
  intros Hk. unfold record_keys in Hk. rewrite !not_elem_of_cons in Hk.
  destruct Hk as (?&?&?&?&?&_). split.
  - unfold from_dict, getitem. by rewrite !lookup_insert_ne.
  - eexists. split; [reflexivity|]. split.
    + rewrite !dom_insert_L, dom_empty_L. unfold record_keys. simpl.
      set_solver.
    + by rewrite !lookup_insert_ne.
Qed.

Lemma from_dict_reads_five_keys_witness :
  from_dict (JObj (<["isbn" := JStr "5-17-004876-9"]>
                     {[ "id" := JInt 1; "title" := JStr "Oblomov" ]}))
  = from_dict (JObj {[ "id" := JInt 1; "title" := JStr "Oblomov" ]}).
Proof.
  apply (from_dict_reads_five_keys
           {[ "id" := JInt 1; "title" := JStr "Oblomov" ]} "isbn"
           (JStr "5-17-004876-9") (mkBook 1 "Oblomov" "Goncharov" 1859 "выдана")).
  apply (bool_decide_unpack _). by vm_compute.
Defined.

(** X3. What [from_dict] makes of a record.  It yields a book with fields
    of the annotated types exactly when the record is a dict that holds an
    integer under "id" and "year" and a string under "title", "author" and
    "status", and the book carries these five values.  A dict that lacks one
    of the five keys raises [KeyError] for the first one missing, in the
    order id, title, author, year, status; a dict that has them all never
    raises.  Anything that is not a dict raises [TypeError]. *)
Theorem from_dict_outcome (j : json) (b : Book) (d : gmap string json) :
  (from_dict j = Returns b ↔
   ∃ d', j = JObj d'
         ∧ d' !! "id" = Some (JInt (book_id b))
         ∧ d' !! "title" = Some (JStr (title b))
         ∧ d' !! "author" = Some (JStr (author b))
         ∧ d' !! "year" = Some (JInt (year b))
         ∧ d' !! "status" = Some (JStr (status b)))
  ∧ match list_find (λ k, d !! k = None) record_keys with
    | Some (_, k) => from_dict (JObj d) = Raises (KeyError k)
    | None => ∀ e, from_dict (JObj d) ≠ Raises e
    end
  ∧ ((∀ d', j ≠ JObj d') → from_dict j = Raises TypeError).
Proof.
  split; [|split].
  - split.
    + destruct j as [| | | | | |d']; try done. rewrite from_dict_lookups.
      unfold getitem.
      destruct (d' !! "id") as [[]|] eqn:Hi; try done;
      destruct (d' !! "title") as [[]|] eqn:Ht; try done;
      destruct (d' !! "author") as [[]|] eqn:Ha; try done;
      destruct (d' !! "year") as [[]|] eqn:Hy; try done;
      destruct (d' !! "status") as [[]|] eqn:Hs; try done.
      simpl. intros [= <-]. by exists d'.
    + intros (d' & -> & Hi & Ht & Ha & Hy & Hs).
      rewrite from_dict_lookups. unfold getitem.
      rewrite Hi, Ht, Ha, Hy, Hs. by destruct b.
  - rewrite from_dict_lookups. unfold getitem, record_keys.
    destruct (d !! "id") as [i|] eqn:Hi; [|by simpl; rewrite Hi].
    destruct (d !! "title") as [t|] eqn:Ht; [|by simpl; rewrite Hi, Ht].
    destruct (d !! "author") as [a|] eqn:Ha; [|by simpl; rewrite Hi, Ht, Ha].
    destruct (d !! "year") as [y|] eqn:Hy;
      [|by simpl; rewrite Hi, Ht, Ha, Hy].
    destruct (d !! "status") as [s|] eqn:Hs;
      [|by simpl; rewrite Hi, Ht, Ha, Hy, Hs].
    simpl. rewrite Hi, Ht, Ha, Hy, Hs. simpl.
    intros e. unfold Book_of_json. by repeat case_match.
  - intros Hnot. destruct j; try done. by destruct (Hnot d0).
Qed.

Lemma from_dict_outcome_witness :
  from_dict (JInt 7) = Raises TypeError.
Proof.
  apply (proj2 (proj2 (from_dict_outcome (JInt 7)
                         (mkBook 1 "Oblomov" "Goncharov" 1859 "выдана") ∅))).
  by intros d'.
Defined.

Example from_dict_first_missing_key :
  from_dict (JObj {[ "id" := JInt 1; "status" := JStr "выдана" ]})
  = Raises (KeyError "title")
  ∧ from_dict (JObj {[ "title" := JStr "Oblomov"; "year" := JInt 1859 ]})
    = Raises (KeyError "id")
  ∧ from_dict (JList []) = Raises TypeError.
Proof. by vm_compute. Qed.

(** ** Loading, by what the file holds *)

Lemma from_dict_raises (j : json) (e : exn) :
  from_dict j = Raises e → e = TypeError ∨ ∃ k, e = KeyError k ∧ k ∈ record_keys.
Proof.
  destruct j as [| | | | | |d]; try (intros [= <-]; by left).
  rewrite from_dict_lookups. unfold getitem, record_keys. intros Hraise. right.
  destruct (d !! "id"); [|injection Hraise as <-; eexists; split; [done|set_solver]].
  destruct (d !! "title"); [|injection Hraise as <-; eexists; split; [done|set_solver]].
  destruct (d !! "author"); [|injection Hraise as <-; eexists; split; [done|set_solver]].
  destruct (d !! "year"); [|injection Hraise as <-; eexists; split; [done|set_solver]].
  destruct (d !! "status"); [|injection Hraise as <-; eexists; split; [done|set_solver]].
  simpl in Hraise. unfold Book_of_json in Hraise. by repeat case_match.
Qed.

Lemma from_dicts_raises (items : list json) (e : exn) :
  from_dicts items = Raises e →
  e = TypeError ∨ ∃ k, e = KeyError k ∧ k ∈ record_keys.
Proof.
  induction items as [|j items IH]; [done|]. simpl.
  destruct (from_dict j) as [b|e1|] eqn:Hj.
  - destruct (from_dicts items) as [bs|e2|]; [done| |done].
    intros [= <-]. by apply IH.
  - intros [= <-]. by eapply from_dict_raises.
  - destruct (from_dicts items) as [bs|e2|]; [done| |done].
    intros [= <-]. by apply IH.
Qed.

Lemma load_books_document (name : string) (d : gmap string file) (j : json) :
  d !! name = Some (Document j) →
  load_books name d
  = match iterate j with
    | Returns items => from_dicts items
    | other => try items <- other; Returns []
    end.
Proof.
  intros Hfile. unfold load_books, read_books, open_read. rewrite Hfile. simpl.
  destruct (iterate j) as [items|e|] eqn:Hit; simpl; [| |done].
  - destruct (from_dicts items) as [bs|e|] eqn:Hitems; [done| |done].
    by destruct (from_dicts_raises _ _ Hitems) as [->|(k & -> & _)].
  - destruct j; simpl in Hit; by simplify_eq.
Qed.

(** X4. What [load_books] makes of a file from which [json.load] returns a
    value, by the shape of that value.  A list is decoded item by item, and
    what comes out is a catalogue, a [KeyError] for one of the five keys or
    a [TypeError].  An empty dict and an empty string are taken for an empty
    catalogue, as the empty list is; a dict or a string that is not empty
    raises [TypeError], and so do null, a boolean and a number.  So once
    [json.load] has returned, neither [FileNotFoundError] nor
    [JSONDecodeError] leaves [load_books]. *)
Theorem load_books_by_shape (name : string) (d : gmap string file) (j : json) :
  d !! name = Some (Document j) →
  match j with
  | JList items =>
      load_books name d = from_dicts items
      ∧ ∀ e, load_books name d = Raises e →
             e = TypeError ∨ ∃ k, e = KeyError k ∧ k ∈ record_keys
  | JObj o =>
      (o = ∅ → load_books name d = Returns [])
      ∧ (o ≠ ∅ → load_books name d = Raises TypeError)
  | JStr s =>
      (s = "" → load_books name d = Returns [])
      ∧ (s ≠ "" → load_books name d = Raises TypeError)
  | _ => load_books name d = Raises TypeError
  end.
Proof.
  intros Hfile. rewrite (load_books_document name d j Hfile).
  destruct j as [| | | |s|items|o]; try done.
  - split.
    + by intros ->.
    + destruct s as [|c s]; [done|]. intros _. reflexivity.
  - split; [done|]. simpl. apply from_dicts_raises.
  - simpl. split.
    + intros ->. by rewrite map_to_list_empty.
    + intros Hne. destruct (map_to_list o) as [|[k v] rest] eqn:Hlist.
      * by apply map_to_list_empty_iff in Hlist.
      * reflexivity.
Qed.

Lemma load_books_by_shape_witness :
  load_books "library.json"
    {[ "library.json" := Document (JObj {[ "books" := JList [] ]}) ]}
  = Raises TypeError.
Proof.
  apply (proj2 (load_books_by_shape "library.json"
                  {[ "library.json" := Document (JObj {[ "books" := JList [] ]}) ]}
                  (JObj {[ "books" := JList [] ]})
                  (lookup_singleton_eq _ _))).
  intros Hempty. by apply (f_equal (λ o, o !! "books")) in Hempty.
Defined.

(** ** display_books *)

(** X6. [display_books] prints one line for each book of the list it is
    given, in the order of the list, and changes nothing but the console.
    Given no list, or an empty list, it prints the whole catalogue instead,
    and the notice "Библиотека пуста." when the catalogue is empty: it
    always prints at least one line. *)
Theorem display_books_output (arg : option (list Book)) (m : machine) :
  let shown := match arg with
               | Some (b :: rest) => b :: rest
               | _ => books (lib m)
               end in
  display_books arg m
  = (PyNone,
     mkMachine (lib m) (disk m)
       (console m ++ match shown with
                     | [] => [msg_empty]
                     | _ => book_line <$> shown
                     end))
  ∧ display_books (Some []) m = display_books None m
  ∧ length (console (after (display_books arg) m))
    = (length (console m) + Nat.max 1 (length shown))%nat.
Proof.
  intros shown. split_and!.
  - apply display_books_run.
  - by rewrite !display_books_run.
  - unfold after. rewrite display_books_run. simpl. rewrite length_app.
    f_equal. fold shown. destruct shown as [|b rest]; [done|].
    unfold display_lines. by rewrite length_fmap.
Qed.

(** ** delete_book on distinct ids *)

Lemma not_elem_of_ids_app (id : Z) (l1 l2 : list Book) (b : Book) :
  NoDup (book_id <$> l1 ++ b :: l2) → book_id b = id →
  id ∉ book_id <$> l1 ++ l2.
Proof.
  rewrite !fmap_app, fmap_cons. intros Hnd Hid Hin.
  apply NoDup_app in Hnd as (_ & Hdisj & Hnd2).
  apply NoDup_cons in Hnd2 as [Hnot _].
  apply elem_of_app in Hin as [Hin|Hin].
  - apply (Hdisj _ Hin). rewrite Hid. by left.
  - by rewrite Hid in Hnot.
Qed.

(** X7. In a catalogue whose ids are pairwise distinct, [delete_book] takes
    out the book with the id and no other: what is left are the books with
    another id, in their order, one fewer than before.  The id is then gone,
    and deleting it once more changes nothing and prints that the book was
    not found. *)
Theorem delete_book_distinct (m : machine) (id : Z) :
  NoDup (ids m) → id ∈ ids m →
  let m' := after (delete_book id) m in
  books (lib m') = filter (λ book, book_id book ≠ id) (books (lib m))
  ∧ S (length (books (lib m'))) = length (books (lib m))
  ∧ (id ∉ ids m')
  ∧ delete_book id m'
    = (PyNone, mkMachine (lib m') (disk m') (console m' ++ [msg_not_found id])).
Proof.
  intros Hnd Hin m'.
  destruct (first_with_id id _ Hin) as (l1 & b & l2 & Hbs & Hid & Hfirst).
  assert (Hm' : books (lib m') = l1 ++ l2).
  { subst m'. unfold after. by rewrite (delete_book_found id m l1 l2 b). }
  assert (Hgone : id ∉ ids m').
  { unfold ids in *. rewrite Hm'. rewrite Hbs in Hnd.
    by apply (not_elem_of_ids_app id l1 l2 b). }
  split_and!.
  - rewrite Hm', Hbs, filter_app, filter_cons_False by (by intros []).
    f_equal; symmetry; apply filter_all; intros x Hx Heq;
      apply Hgone; unfold ids; rewrite Hm', fmap_app, <- Heq;
      apply elem_of_app; [left|right]; by apply list_elem_of_fmap_2.
  - rewrite Hm', Hbs, !length_app. simpl. lia.
  - done.
  - by apply delete_book_absent.
Qed.

Lemma delete_book_distinct_witness :
  books (lib (after (delete_book 3) machine_1_3))
  = filter (λ book, book_id book ≠ 3) (books (lib machine_1_3)).
Proof.
  apply (delete_book_distinct machine_1_3 3).
  - apply (bool_decide_unpack _). by vm_compute.
  - apply (bool_decide_unpack _). by vm_compute.
Defined.

(** A store can hold two records with one id: both are loaded, and
    [delete_book] takes out the first and leaves the second. *)
Example delete_book_duplicate_id :
  let twice := JList [to_dict (mkBook 1 "Oblomov" "Goncharov" 1859 "выдана");
                      to_dict (mkBook 1 "Demons" "Dostoevsky" 1872 "в наличии")] in
  ∃ m, Library_init "library.json" {[ "library.json" := Document twice ]} []
       = Returns m
       ∧ ids m = [1; 1]
       ∧ books (lib (after (delete_book 1) m))
         = [mkBook 1 "Demons" "Dostoevsky" 1872 "в наличии"].
Proof. eexists. by vm_compute. Qed.

(** ** update_status *)

(** X8. [update_status] touches nothing but a status: whatever the id and
    the status given, the ids, titles, authors and years of the catalogue,
    its length and its order are as before, and every book either is a book
    of before or is one of before with the new status. *)
Theorem update_status_keeps_identity (m : machine) (id : Z) (s : string) :
  let m' := after (update_status id s) m in
  identity_of <$> books (lib m') = identity_of <$> books (lib m)
  ∧ length (books (lib m')) = length (books (lib m))
  ∧ ∀ book', book' ∈ books (lib m') →
      book' ∈ books (lib m)
      ∨ ∃ book, book ∈ books (lib m) ∧ book_id book = id
                ∧ s ∈ valid_statuses ∧ book' = with_status book s.
Proof.
  intros m'. subst m'. unfold after.
  destruct (decide (id ∈ ids m)) as [Hin|Hno];
    [|rewrite update_status_absent by done; simpl; by eauto].
  destruct (decide (s ∈ valid_statuses)) as [Hok|Hbad];
    [|rewrite update_status_rejected by done; simpl; by eauto].
  destruct (first_with_id id _ Hin) as (l1 & b & l2 & Hbs & Hid & Hfirst).
  rewrite (update_status_found id s m l1 l2 b Hbs Hid Hfirst Hok). simpl.
  rewrite Hbs. split_and!.
  - by rewrite !fmap_app, !fmap_cons.
  - by rewrite !length_app.
  - intros book'. rewrite !elem_of_app, !elem_of_cons.
    intros [?|[->|?]]; [tauto| |tauto].
    right. exists b. rewrite elem_of_app, elem_of_cons. split_and!; try done.
    right. by left.
Qed.

(** X9. Calling [update_status] twice with the same id and status leaves the
    catalogue and the store as one call does.  After a call that goes
    through, a search by that status finds a book with the id, and in a
    catalogue with distinct ids every book with the id has the status. *)
Theorem update_status_then (lower : string → string)
    (class_attr : Book → string → option string)
    (m : machine) (id : Z) (s : string) :
  let m' := after (update_status id s) m in
  lib (after (update_status id s) m') = lib m'
  ∧ disk (after (update_status id s) m') = disk m'
  ∧ (id ∈ ids m → s ∈ valid_statuses →
     (∃ book, book ∈ search_results lower class_attr [("status", VStr s)]
                       (books (lib m'))
              ∧ book_id book = id)
     ∧ (NoDup (ids m) →
        ∀ book, book ∈ books (lib m') → book_id book = id → status book = s)).
Proof.
  intros m'. subst m'. unfold after.
  destruct (decide (id ∈ ids m)) as [Hin|Hno].
  2:{ rewrite (update_status_absent id s m Hno). cbn [snd].
      rewrite update_status_absent by exact Hno. by split_and!. }
  destruct (decide (s ∈ valid_statuses)) as [Hok|Hbad].
  2:{ rewrite (update_status_rejected id s m Hin Hbad). cbn [snd].
      rewrite update_status_rejected by (exact Hin || exact Hbad).
      by split_and!. }
  destruct (first_with_id id _ Hin) as (l1 & b & l2 & Hbs & Hid & Hfirst).
  rewrite (update_status_found id s m l1 l2 b Hbs Hid Hfirst Hok). simpl.
  erewrite (update_status_found id s _ l1 l2 (with_status b s));
    [|done|done|done|done].
  unfold saved. simpl. split_and!.
  - done.
  - by rewrite insert_insert_eq.
  - intros _ _. split.
    + exists (with_status b s). split; [|done].
      apply list_elem_of_filter. split; [done|].
      apply elem_of_app. right. by left.
    + intros Hnd book Hbook Hbid.
      apply elem_of_app in Hbook as [Hbook|[->|Hbook]%elem_of_cons]; [|done|].
      * destruct Hfirst. rewrite <- Hbid. by apply list_elem_of_fmap_2.
      * unfold ids in Hnd. rewrite Hbs in Hnd.
        destruct (not_elem_of_ids_app id l1 l2 b Hnd Hid).
        rewrite fmap_app. apply elem_of_app. right. rewrite <- Hbid.
        by apply list_elem_of_fmap_2.
Qed.

Lemma update_status_then_witness :
  ∃ book, book ∈ search_results ascii_lower no_class_attr
                   [("status", VStr "выдана")]
                   (books (lib (after (update_status 3 "выдана") machine_1_3)))
          ∧ book_id book = 3.
Proof.
  apply (update_status_then ascii_lower no_class_attr machine_1_3 3 "выдана").
  - apply (bool_decide_unpack _). by vm_compute.
  - rewrite valid_statuses_elem. by right.
Defined.

(** ** add_book, then *)

(** The books of the catalogue after one call that changes it. *)
Lemma step_books (o : op) (m : machine) :
  let bs := books (lib m) in
  let bs' := books (lib (after (step o) m)) in
  (∃ t a y, bs' = bs ++ [mkBook (py_max (ids m) 0 + 1) t a y default_status])
  ∨ (∃ l1 b l2, bs = l1 ++ b :: l2 ∧ bs' = l1 ++ l2)
  ∨ (∃ l1 b l2 s, bs = l1 ++ b :: l2 ∧ s ∈ valid_statuses
                  ∧ bs' = l1 ++ with_status b s :: l2)
  ∨ bs' = bs.
Proof.
  intros bs bs'. subst bs bs'. unfold after.
  destruct o as [t a y|id|id s]; cbn [step].
  - left. rewrite add_book_run. simpl. eauto.
  - destruct (decide (id ∈ ids m)) as [Hin|Hno].
    + destruct (first_with_id id _ Hin) as (l1 & b & l2 & Hbs & Hid & Hfirst).
      right. left. rewrite (delete_book_found id m l1 l2 b Hbs Hid Hfirst).
      simpl. eauto.
    + do 3 right. by rewrite delete_book_absent.
  - destruct (decide (id ∈ ids m)) as [Hin|Hno].
    + destruct (decide (s ∈ valid_statuses)) as [Hok|Hbad].
      * destruct (first_with_id id _ Hin) as (l1 & b & l2 & Hbs & Hid & Hfirst).
        do 2 right. left.
        rewrite (update_status_found id s m l1 l2 b Hbs Hid Hfirst Hok).
        simpl. eauto 10.
      * do 3 right. by rewrite update_status_rejected.
    + do 3 right. by rewrite update_status_absent.
Qed.

(** X10. A search sees a book just added after the books it saw before:
    what [search_books] selects in the new catalogue is what it selected in
    the old one, followed by the new book if that meets the criteria; so a
    search by the title just given ends with the new book.  Deleting the id
    just handed out gives back the catalogue as it was, and the store then
    holds it. *)
Theorem add_book_then (lower : string → string)
    (class_attr : Book → string → option string)
    (kwargs : list (string * pyval)) (m : machine) (t a : string) (y : Z) :
  let new_id := py_max (ids m) 0 + 1 in
  let new_book := mkBook new_id t a y default_status in
  let m' := after (add_book t a y) m in
  search_results lower class_attr kwargs (books (lib m'))
  = search_results lower class_attr kwargs (books (lib m))
    ++ search_results lower class_attr kwargs [new_book]
  ∧ search_results lower class_attr [("title", VStr t)] (books (lib m'))
    = search_results lower class_attr [("title", VStr t)] (books (lib m))
      ++ [new_book]
  ∧ lib (after (delete_book new_id) m') = lib m
  ∧ disk (after (delete_book new_id) m') = saved m (books (lib m)).
Proof.
  intros new_id new_book m'. subst m'. unfold after.
  rewrite add_book_run. cbn [snd lib books]. fold new_id new_book.
  split_and!.
  - by rewrite !search_results_filter, filter_app.
  - rewrite !search_results_one, filter_app. f_equal.
    by rewrite filter_cons_True.
  - erewrite (delete_book_found new_id _ (books (lib m)) [] new_book);
      [|done|done|apply new_id_fresh].
    simpl. rewrite app_nil_r. by destruct (lib m).
  - erewrite (delete_book_found new_id _ (books (lib m)) [] new_book);
      [|done|done|apply new_id_fresh].
    unfold saved. simpl. by rewrite app_nil_r, insert_insert_eq.
Qed.

(** ** Statuses *)

Lemma step_statuses (o : op) (m : machine) :
  Forall (λ book, status book ∈ valid_statuses) (books (lib m)) →
  Forall (λ book, status book ∈ valid_statuses)
         (books (lib (after (step o) m))).
Proof.
  intros Hvalid.
  destruct (step_books o m)
    as [(t & a & y & ->)|[(l1 & b & l2 & Hbs & ->)
       |[(l1 & b & l2 & s & Hbs & Hs & ->)| ->]]]; [| | |done].
  - apply Forall_app. split; [done|]. apply Forall_singleton.
    apply valid_statuses_elem. by left.
  - rewrite Hbs in Hvalid. apply Forall_app in Hvalid as [H1 H2].
    apply Forall_cons in H2 as [_ H2]. by apply Forall_app.
  - rewrite Hbs in Hvalid. apply Forall_app in Hvalid as [H1 H2].
    apply Forall_cons in H2 as [_ H2]. apply Forall_app. split; [done|].
    by apply Forall_cons.
Qed.

(** X11. The statuses of the catalogue stay within "в наличии" and
    "выдана": [add_book] gives the first, [update_status] sets nothing
    else, [delete_book] sets nothing.  A catalogue whose statuses are
    allowed keeps them so under every call, and a catalogue that started
    empty has only allowed statuses after any sequence of calls. *)
Theorem statuses_stay_valid :
  (∀ o m, Forall (λ book, status book ∈ valid_statuses) (books (lib m)) →
          Forall (λ book, status book ∈ valid_statuses)
                 (books (lib (after (step o) m))))
  ∧ ∀ name d out os,
      Forall (λ book, status book ∈ valid_statuses)
             (books (lib (after (steps os)
                                (mkMachine (mkLibrary name []) d out)))).
Proof.
  split; [apply step_statuses|]. intros name d out os.
  apply (steps_invariant
           (λ m, Forall (λ book, status book ∈ valid_statuses) (books (lib m))));
    [apply step_statuses|constructor].
Qed.

Lemma statuses_stay_valid_witness :
  Forall (λ book, status book ∈ valid_statuses)
         (books (lib (after (step (UpdateStatus 1 "выдана")) one_book))).
Proof.
  apply (proj1 statuses_stay_valid).
  apply Forall_singleton, valid_statuses_elem. by left.
Defined.

(** ** Criteria *)

(** X12. How searches combine.  Searching by two lists of criteria at once
    is searching by the second within the results of the first; the order of
    the criteria does not matter, nor does giving one twice; searching again
    within the results by the same criteria changes nothing; a search in two
    catalogues put end to end is the two searches put end to end; and more
    criteria select a sublist. *)
Theorem search_results_combine (lower : string → string)
    (class_attr : Book → string → option string)
    (k1 k2 : list (string * pyval)) (bs bs' : list Book) :
  search_results lower class_attr (k1 ++ k2) bs
  = search_results lower class_attr k2 (search_results lower class_attr k1 bs)
  ∧ (∀ k, k ≡ₚ k1 →
          search_results lower class_attr k bs
          = search_results lower class_attr k1 bs)
  ∧ search_results lower class_attr (k1 ++ k1) bs
    = search_results lower class_attr k1 bs
  ∧ search_results lower class_attr k1 (search_results lower class_attr k1 bs)
    = search_results lower class_attr k1 bs
  ∧ search_results lower class_attr k1 (bs ++ bs')
    = search_results lower class_attr k1 bs
      ++ search_results lower class_attr k1 bs'
  ∧ search_results lower class_attr (k1 ++ k2) bs
    `sublist_of` search_results lower class_attr k1 bs.
Proof.
  assert (Happ : ∀ ka kb l,
             search_results lower class_attr (ka ++ kb) l
             = search_results lower class_attr kb
                 (search_results lower class_attr ka l)).
  { intros ka kb l. unfold search_results. by rewrite foldl_app. }
  assert (Hsame : ∀ ka l,
             search_results lower class_attr ka
               (search_results lower class_attr ka l)
             = search_results lower class_attr ka l).
  { intros ka l. rewrite !search_results_filter, list_filter_filter.
    apply list_filter_iff. tauto. }
  split_and!.
  - apply Happ.
  - intros k Hperm. rewrite !search_results_filter. apply list_filter_iff.
    intros book. by rewrite Hperm.
  - by rewrite Happ, Hsame.
  - apply Hsame.
  - by rewrite !search_results_filter, filter_app.
  - rewrite Happ, (search_results_filter _ _ k2). apply sublist_filter.
Qed.

Lemma search_results_combine_witness :
  search_results ascii_lower no_class_attr
    [("year", VInt 1877); ("author", VStr "tolstoy")] (books (lib machine_1_3))
  = search_results ascii_lower no_class_attr
      [("author", VStr "tolstoy"); ("year", VInt 1877)] (books (lib machine_1_3)).
Proof.
  apply (proj1 (proj2 (search_results_combine ascii_lower no_class_attr
           [("author", VStr "tolstoy"); ("year", VInt 1877)] []
           (books (lib machine_1_3)) []))).
  apply perm_swap.
Defined.

(** ** Searching by a number *)

Lemma string_of_uint_plain (d : Decimal.uint) :
  is_ascii (NilEmpty.string_of_uint d) = true
  ∧ ascii_lower (NilEmpty.string_of_uint d) = NilEmpty.string_of_uint d.
Proof.
  induction d as [|d [IH1 IH2]|d [IH1 IH2]|d [IH1 IH2]|d [IH1 IH2]|d [IH1 IH2]
                  |d [IH1 IH2]|d [IH1 IH2]|d [IH1 IH2]|d [IH1 IH2]|d [IH1 IH2]];
    [done|..]; cbn [NilEmpty.string_of_uint is_ascii ascii_lower];
    rewrite IH1, IH2; by vm_compute.
Qed.

(** The text of an integer is made of digits and at most a minus sign:
    ASCII, and the same in lower case. *)
Lemma str_int_plain (n : Z) :
  is_ascii (str_int n) = true ∧ ascii_lower (str_int n) = str_int n.
Proof.
  unfold str_int.
  destruct (Z.to_int n) as [d|d]; cbn [NilZero.string_of_int];
    destruct (string_of_uint_plain d) as [H1 H2];
    destruct d; cbn [NilZero.string_of_uint is_ascii ascii_lower] in *;
    try done; rewrite ?H1, ?H2; by vm_compute.
Qed.

Lemma str_int_parse (n : Z) :
  NilZero.int_of_string (str_int n) = Some (Z.to_int n).
Proof.
  unfold str_int. apply NilZero.isi; destruct n; simpl; try done;
    intros [= H]; by apply Unsigned.to_uint_nonnil in H.
Qed.

Lemma str_int_inj (a b : Z) : str_int a = str_int b → a = b.
Proof.
  intros Heq. apply DecimalZ.to_int_inj.
  pose proof (str_int_parse a) as Ha. rewrite Heq, str_int_parse in Ha.
  by injection Ha.
Qed.

Lemma lower_str_int (lower : string → string) (a b : Z) :
  lower_spec lower → lower (str_int a) = lower (str_int b) ↔ a = b.
Proof.
  intros Hlower. split; [|by intros ->].
  destruct (str_int_plain a) as [Ha1 Ha2], (str_int_plain b) as [Hb1 Hb2].
  rewrite !(lower_ascii _ Hlower), Ha2, Hb2 by done. apply str_int_inj.
Qed.

(** X13. A search by the id, given as an integer or as its decimal text,
    selects exactly the books with that id, and a search by the year exactly
    the books of that year.  In a catalogue with distinct ids the search by
    an id selects at most one book. *)
Theorem search_by_number (lower : string → string)
    (class_attr : Book → string → option string)
    (n : Z) (bs : list Book) :
  lower_spec lower →
  search_results lower class_attr [("book_id", VInt n)] bs
  = filter (λ book, book_id book = n) bs
  ∧ search_results lower class_attr [("book_id", VStr (str_int n))] bs
    = filter (λ book, book_id book = n) bs
  ∧ search_results lower class_attr [("year", VInt n)] bs
    = filter (λ book, year book = n) bs
  ∧ search_results lower class_attr [("year", VStr (str_int n))] bs
    = filter (λ book, year book = n) bs
  ∧ (NoDup (book_id <$> bs) →
     (length (search_results lower class_attr [("book_id", VInt n)] bs) ≤ 1)%nat).
Proof.
  intros Hlower.
  assert (Hid : search_results lower class_attr [("book_id", VInt n)] bs
                = filter (λ book, book_id book = n) bs).
  { rewrite search_results_one. apply list_filter_iff. intros book.
    apply (lower_str_int lower _ _ Hlower). }
  assert (Hyear : search_results lower class_attr [("year", VInt n)] bs
                  = filter (λ book, year book = n) bs).
  { rewrite search_results_one. apply list_filter_iff. intros book.
    apply (lower_str_int lower _ _ Hlower). }
  split_and!; try done. intros Hnd. rewrite Hid.
  clear Hid Hyear. induction bs as [|b bs IH]; [simpl; lia|].
  rewrite fmap_cons in Hnd. apply NoDup_cons in Hnd as [Hnot Hnd].
  rewrite filter_cons. case_decide as Hb; [|by apply IH].
  rewrite filter_none; [simpl; lia|].
  intros x Hx Hxn. apply Hnot. rewrite Hb, <- Hxn. by apply list_elem_of_fmap_2.
Qed.

Lemma search_by_number_witness :
  search_results ascii_lower no_class_attr [("book_id", VInt 3)]
    (books (lib machine_1_3))
  = filter (λ book, book_id book = 3) (books (lib machine_1_3)).
Proof.
  apply (search_by_number ascii_lower no_class_attr 3 (books (lib machine_1_3))
           ascii_lower_spec).
Defined.

(** ** main *)

Lemma int_of_text_str_int (n : Z) : int_of_text (str_int n) = Some n.
Proof. unfold int_of_text. rewrite str_int_parse. simpl. by rewrite DecimalZ.of_to. Qed.

Section MainFacts.

Variable int_of_str : string → option Z.
Variable strip : string → string.
Variable lower : string → string.
Variable class_attr : Book → string → option string.

(** One round on a command that goes on. *)
Ltac decide_choice :=
  repeat match goal with
    | |- context [decide (?a = ?b)] =>
        first [ rewrite (decide_True (P := a = b)) by reflexivity
              | rewrite (decide_False (P := a = b)) by (intros ?; discriminate) ]
    end.

Lemma turn_command (c : command) (m : machine) (rest ps : list string) :
  (∀ n, int_of_str (str_int n) = Some n) →
  goes_on strip c →
  turn int_of_str strip lower class_attr (mkProcess m (lines_of c ++ rest) ps)
  = (Done true,
     mkProcess (effect strip lower class_attr c (after (print_lines menu) m))
               rest (ps ++ prompts_of c)).
Proof.
  intros Hint Hgo.
  unfold turn, io_bind, lift, say, input, to_int, lift_outcome, io_ret.
  destruct c as [t a y|id|f v| |id st|choice];
    cbn [mach stdin prompts lines_of prompts_of app effect goes_on] in *;
    decide_choice;
    cbn [mach stdin prompts]; rewrite ?Hint; cbn [mach stdin prompts];
    rewrite <- ?app_assoc; try done.
  - unfold search_books.
    rewrite decide_False by (by intros ?%list_elem_of_singleton).
    unfold after at 2. by destruct (search_body _ _ _ _).
  - unfold choices in Hgo. rewrite !not_elem_of_cons in Hgo.
    destruct Hgo as (?&?&?&?&?&?&_). by rewrite !decide_False.
Qed.

Lemma turn_exit (m : machine) (rest ps : list string) :
  turn int_of_str strip lower class_attr (mkProcess m ("6" :: rest) ps)
  = (Done false,
     mkProcess (after (print msg_exit) (after (print_lines menu) m))
               rest (ps ++ [prompt_choice])).
Proof.
  unfold turn, io_bind, lift, say, input, io_ret.
  cbn [mach stdin prompts]. by decide_choice.
Qed.

(** Every way one round can go: it reads some lines [used] and then either
    raises, or breaks out on the choice 6, or does what one command asks and
    goes on. *)
Lemma turn_outcomes (s : process) :
  let m' := after (print_lines menu) (mach s) in
  ∃ used rest ps',
    stdin s = used ++ rest
    ∧ ((∃ c, turn int_of_str strip lower class_attr s
             = (Crash c, mkProcess m' rest ps')
             ∧ (c = EOFError ∧ rest = [] ∨ c = ValueError
                ∨ c = Uncaught TypeError))
       ∨ (used = ["6"]
          ∧ turn int_of_str strip lower class_attr s
            = (Done false, mkProcess (after (print msg_exit) m') rest ps'))
       ∨ (∃ c, used ≠ []
               ∧ turn int_of_str strip lower class_attr s
                 = (Done true,
                    mkProcess (effect strip lower class_attr c m') rest ps'))).
Proof.
  intros m'. destruct s as [m ins ps]. subst m'. cbn [mach stdin].
  unfold turn, io_bind, lift, say, input, to_int, lift_outcome, io_ret.
  cbn [mach stdin prompts].
  destruct ins as [|choice ins].
  { exists [], [], (ps ++ [prompt_choice]). split; [done|]. left.
    exists EOFError. eauto. }
  cbn [mach stdin prompts].
  destruct (decide (choice = "1")) as [->|?].
  { destruct ins as [|t ins]; cbn [mach stdin prompts].
    { exists ["1"], [], ((ps ++ [prompt_choice]) ++ [prompt_title]).
      split; [done|]. left. exists EOFError. eauto. }
    destruct ins as [|a ins]; cbn [mach stdin prompts].
    { exists ["1"; t], [],
        (((ps ++ [prompt_choice]) ++ [prompt_title]) ++ [prompt_author]).
      split; [done|]. left. exists EOFError. eauto. }
    destruct ins as [|y ins]; cbn [mach stdin prompts].
    { exists ["1"; t; a], [],
        ((((ps ++ [prompt_choice]) ++ [prompt_title]) ++ [prompt_author])
         ++ [prompt_year]).
      split; [done|]. left. exists EOFError. eauto. }
    exists ["1"; t; a; y], ins,
      ((((ps ++ [prompt_choice]) ++ [prompt_title]) ++ [prompt_author])
       ++ [prompt_year]).
    split; [done|]. destruct (int_of_str y) as [num|].
    - right. right. by exists (CAdd t a num).
    - left. exists ValueError. eauto. }
  destruct (decide (choice = "2")) as [->|?].
  { destruct ins as [|y ins]; cbn [mach stdin prompts].
    { exists ["2"], [], ((ps ++ [prompt_choice]) ++ [prompt_delete]).
      split; [done|]. left. exists EOFError. eauto. }
    exists ["2"; y], ins, ((ps ++ [prompt_choice]) ++ [prompt_delete]).
    split; [done|]. destruct (int_of_str y) as [num|].
    - right. right. by exists (CDelete num).
    - left. exists ValueError. eauto. }
  destruct (decide (choice = "3")) as [->|?].
  { destruct ins as [|f ins]; cbn [mach stdin prompts].
    { exists ["3"], [], ((ps ++ [prompt_choice]) ++ [prompt_field]).
      split; [done|]. left. exists EOFError. eauto. }
    destruct ins as [|v ins]; cbn [mach stdin prompts].
    { exists ["3"; f], [],
        (((ps ++ [prompt_choice]) ++ [prompt_field]) ++ [prompt_value]).
      split; [done|]. left. exists EOFError. eauto. }
    exists ["3"; f; v], ins,
      (((ps ++ [prompt_choice]) ++ [prompt_field]) ++ [prompt_value]).
    split; [done|]. unfold search_books. case_decide.
    - left. exists (Uncaught TypeError). eauto.
    - right. right. exists (CSearch f v). split; [done|].
      cbn [effect]. unfold after at 2. by destruct (search_body _ _ _ _). }
  destruct (decide (choice = "4")) as [->|?].
  { exists ["4"], ins, (ps ++ [prompt_choice]). split; [done|].
    right. right. by exists CDisplay. }
  destruct (decide (choice = "5")) as [->|?].
  { destruct ins as [|y ins]; cbn [mach stdin prompts].
    { exists ["5"], [], ((ps ++ [prompt_choice]) ++ [prompt_update]).
      split; [done|]. left. exists EOFError. eauto. }
    destruct (int_of_str y) as [num|] eqn:Hy.
    2:{ exists ["5"; y], ins, ((ps ++ [prompt_choice]) ++ [prompt_update]).
        split; [done|]. left. exists ValueError. eauto. }
    destruct ins as [|st ins]; cbn [mach stdin prompts].
    { exists ["5"; y], [],
        (((ps ++ [prompt_choice]) ++ [prompt_update]) ++ [prompt_status]).
      split; [done|]. left. exists EOFError. eauto. }
    exists ["5"; y; st], ins,
      (((ps ++ [prompt_choice]) ++ [prompt_update]) ++ [prompt_status]).
    split; [done|]. right. right. by exists (CUpdate num st). }
  destruct (decide (choice = "6")) as [->|?].
  { exists ["6"], ins, (ps ++ [prompt_choice]). split; [done|].
    right. left. done. }
  exists [choice], ins, (ps ++ [prompt_choice]). split; [done|].
  right. right. by exists (COther choice).
Qed.

Lemma print_lines_core (lines : list string) (m : machine) :
  lib (after (print_lines lines) m) = lib m
  ∧ disk (after (print_lines lines) m) = disk m.
Proof. unfold after. by rewrite print_lines_run. Qed.

(** A command either leaves the object and the store alone or is one of the
    three calls that change a catalogue. *)
Lemma effect_core (c : command) (m : machine) :
  (lib (effect strip lower class_attr c m) = lib m
   ∧ disk (effect strip lower class_attr c m) = disk m)
  ∨ ∃ o, effect strip lower class_attr c m = after (step o) m.
Proof.
  destruct c as [t a y|id|f v| |id st|choice]; cbn [effect].
  - right. by exists (Add t a y).
  - right. by exists (Delete id).
  - left. unfold after. by rewrite search_body_run.
  - left. unfold after. by rewrite display_books_run.
  - right. by exists (UpdateStatus id (strip st)).
  - by left.
Qed.

Lemma loop_commands (cs : list command) (rounds : nat) (m : machine)
    (rest ps : list string) :
  (∀ n, int_of_str (str_int n) = Some n) →
  Forall (goes_on strip) cs →
  (length cs < rounds)%nat →
  loop int_of_str strip lower class_attr rounds
    (mkProcess m (concat (lines_of <$> cs) ++ "6" :: rest) ps)
  = Some (Exited,
      mkProcess
        (after (print msg_exit)
           (after (print_lines menu) (rounds_of strip lower class_attr cs m)))
        rest (ps ++ concat (prompts_of <$> cs) ++ [prompt_choice])).
Proof.
  intros Hint. revert rounds m ps.
  induction cs as [|c cs IH]; intros rounds m ps Hgo Hlen;
    (destruct rounds as [|rounds]; [simpl in Hlen; lia|]); cbn [loop].
  - cbn [fmap list_fmap concat app]. by rewrite turn_exit.
  - apply Forall_cons in Hgo as [Hc Hcs].
    rewrite fmap_cons. cbn [concat]. rewrite <- app_assoc.
    rewrite (turn_command c m _ ps Hint Hc).
    rewrite IH by (done || simpl in Hlen; lia).
    rewrite fmap_cons. cbn [concat]. unfold rounds_of. cbn [foldl].
    by rewrite <- !app_assoc.
Qed.

End MainFacts.

Lemma load_books_raises (name : string) (d : gmap string file) (e : exn) :
  load_books name d = Raises e →
  e = UnicodeDecodeError ∨ e = TypeError
  ∨ ∃ k, e = KeyError k ∧ k ∈ record_keys.
Proof.
  destruct (d !! name) as [[| |j]|] eqn:Hfile.
  - unfold load_books, read_books, open_read. rewrite Hfile. simpl.
    intros [= <-]. by left.
  - unfold load_books, read_books, open_read. by rewrite Hfile.
  - rewrite (load_books_document name d j Hfile).
    destruct (iterate j) as [items|e'|] eqn:Hit; simpl.
    + intros [->|?]%from_dicts_raises; by eauto.
    + intros [= <-]. destruct j; simpl in Hit; simplify_eq; by eauto.
    + done.
  - unfold load_books, read_books, open_read. by rewrite Hfile.
Qed.

(** X14. The menu does what the user asks.  When the user types a sequence
    of commands (an add, a delete, a search by a field other than "self", a
    listing, a change of status, or a line that is no choice), with numbers
    in decimal, and then the choice 6, [main] exits in order: the library has
    gone through exactly the calls the commands stand for, each after the
    menu was printed, the lines after the 6 are not read, and the prompts
    shown are those of the commands. *)
Theorem main_runs_commands (int_of_str : string → option Z)
    (strip lower : string → string)
    (class_attr : Book → string → option string)
    (cs : list command) (rest : list string)
    (d : gmap string file) (m0 : machine) :
  (∀ n, int_of_str (str_int n) = Some n) →
  Forall (goes_on strip) cs →
  Library_init "library.json" d [] = Returns m0 →
  main int_of_str strip lower class_attr
    (concat (lines_of <$> cs) ++ "6" :: rest) d
  = Some (Ran Exited
      (mkProcess
         (after (print msg_exit)
            (after (print_lines menu) (rounds_of strip lower class_attr cs m0)))
         rest (concat (prompts_of <$> cs) ++ [prompt_choice]))).
Proof.
  intros Hint Hgo Hinit. unfold main. rewrite Hinit.
  rewrite (loop_commands int_of_str strip lower class_attr cs _ m0 rest []
             Hint Hgo); [done|].
  rewrite length_app. simpl.
  assert (length cs ≤ length (concat (lines_of <$> cs)))%nat; [|lia].
  clear. induction cs as [|c cs IH]; [done|].
  rewrite fmap_cons. cbn [concat]. rewrite length_app.
  destruct c; simpl; lia.
Qed.

Lemma main_runs_commands_witness :
  main int_of_text (λ text, text) ascii_lower no_class_attr
    (concat (lines_of <$> [CAdd "Oblomov" "Goncharov" 1859; CUpdate 1 "выдана";
                           CSearch "status" "выдана"; COther "7"; CDelete 1])
     ++ "6" :: ["1"]) ∅
  = Some (Ran Exited
      (mkProcess
         (after (print msg_exit)
            (after (print_lines menu)
               (rounds_of (λ text, text) ascii_lower no_class_attr
                  [CAdd "Oblomov" "Goncharov" 1859; CUpdate 1 "выдана";
                   CSearch "status" "выдана"; COther "7"; CDelete 1]
                  empty_machine)))
         ["1"]
         (concat (prompts_of <$> [CAdd "Oblomov" "Goncharov" 1859;
                                  CUpdate 1 "выдана";
                                  CSearch "status" "выдана"; COther "7";
                                  CDelete 1])
          ++ [prompt_choice]))).
Proof.
  apply (main_runs_commands int_of_text (λ text, text) ascii_lower no_class_attr).
  - apply int_of_text_str_int.
  - repeat constructor; cbn [goes_on]; [done|].
    apply (bool_decide_unpack _). by vm_compute.
  - reflexivity.
Defined.

(** ** Writes that fail *)

Section WriteFacts.

Variable write_fate : machine → fate.

(** A call either does what the call whose write goes through does, or its
    write raises; and it raises when it comes to a write that does not go
    through, and only then. *)
Lemma step_on_cases (o : op) (s : process) :
  let at_write :=
    before_write (mach s) (books (lib (after (step o) (mach s)))) in
  (step_on write_fate o s = lift (step o) s
   ∧ (reaches_write o (mach s) → write_fate at_write = Written))
  ∨ ∃ c m',
      step_on write_fate o s = (Crash c, mkProcess m' (stdin s) (prompts s))
      ∧ failed_write o c (mach s) m'
      ∧ write_fate at_write ≠ Written
      ∧ reaches_write o (mach s).
Proof.
  destruct s as [m ins ps].
  unfold failed_write, before_write, lift, result_of, after.
  cbn [mach stdin prompts].
  destruct o as [t a y|id|id st]; cbn [step step_on reaches_write].
  - rewrite add_book_run. cbn [fst snd lib books filename].
    unfold add_book_on, io_bind, lift, save_books_on, result_of, after, io_ret.
    cbn [mach stdin prompts get_books set_books fst snd lib books filename
         disk console].
    destruct (write_fate _) as [| |cut] eqn:Hfate.
    + left. by split.
    + right. eexists _, _. split; [reflexivity|]. cbn. split_and!; try done.
      by left.
    + right. eexists _, _. split; [reflexivity|]. cbn. split_and!; try done.
      right. by exists cut.
  - destruct (decide (id ∈ ids m)) as [Hin|Hno].
    + destruct (first_with_id id _ Hin) as (l1 & b & l2 & Hbs & Hid & Hfirst).
      rewrite (delete_book_found id m l1 l2 b Hbs Hid Hfirst).
      cbn [fst snd lib books filename].
      unfold delete_book_on, io_bind, lift, save_books_on, result_of, after,
        io_ret.
      cbn [mach stdin prompts get_books set_books fst snd lib books filename
           disk console].
      rewrite Hbs, (find_by_id_first id l1 l2 b Hid Hfirst).
      cbn [mach stdin prompts get_books set_books fst snd lib books filename
           disk console].
      rewrite delete_middle.
      destruct (write_fate _) as [| |cut] eqn:Hfate.
      * left. by split.
      * right. eexists _, _. split; [reflexivity|]. cbn. split_and!; try done.
        by left.
      * right. eexists _, _. split; [reflexivity|]. cbn. split_and!; try done.
        right. by exists cut.
    + left. split; [|done]. rewrite (delete_book_absent id m Hno).
      unfold delete_book_on, io_bind, lift, result_of, after, io_ret.
      cbn [mach stdin prompts get_books fst snd].
      by rewrite (find_by_id_absent id _ Hno).
  - destruct (decide (id ∈ ids m)) as [Hin|Hno].
    + destruct (decide (st ∈ valid_statuses)) as [Hok|Hbad].
      * destruct (first_with_id id _ Hin) as (l1 & b & l2 & Hbs & Hid & Hfirst).
        rewrite (update_status_found id st m l1 l2 b Hbs Hid Hfirst Hok).
        cbn [fst snd lib books filename].
        unfold update_status_on, io_bind, lift, save_books_on, result_of, after,
          io_ret.
        cbn [mach stdin prompts get_books set_books fst snd lib books filename
             disk console].
        rewrite Hbs, (find_by_id_first id l1 l2 b Hid Hfirst),
          decide_True by done.
        cbn [mach stdin prompts get_books set_books fst snd lib books filename
             disk console].
        rewrite insert_app_r_alt, Nat.sub_diag by done.
        cbn [insert list_insert].
        destruct (write_fate _) as [| |cut] eqn:Hfate.
        -- left. by split.
        -- right. eexists _, _. split; [reflexivity|]. cbn.
           split_and!; try done. by left.
        -- right. eexists _, _. split; [reflexivity|]. cbn.
           split_and!; try done. right. by exists cut.
      * left. split; [|by intros [_ ?]].
        rewrite (update_status_rejected id st m Hin Hbad).
        unfold update_status_on, io_bind, lift, result_of, after, io_ret.
        cbn [mach stdin prompts get_books fst snd].
        pose proof (find_by_id id (books (lib m))) as Hfind.
        destruct (list_find _ _) as [[i b]|]; [|done].
        by rewrite decide_False.
    + left. split; [|by intros [? _]].
      rewrite (update_status_absent id st m Hno).
      unfold update_status_on, io_bind, lift, result_of, after, io_ret.
      cbn [mach stdin prompts get_books fst snd].
      by rewrite (find_by_id_absent id _ Hno).
Qed.

(** A call that does not come to a write leaves the catalogue and the
    store alone. *)
Lemma step_without_write (o : op) (m : machine) :
  ¬ reaches_write o m →
  lib (after (step o) m) = lib m ∧ disk (after (step o) m) = disk m.
Proof.
  unfold after. destruct o as [t a y|id|id st]; cbn [step reaches_write].
  - by intros [].
  - intros Hno. by rewrite delete_book_absent.
  - intros Hno. destruct (decide (id ∈ ids m)) as [Hin|Hid].
    + rewrite update_status_rejected; [done..|]. intros Hok. by apply Hno.
    + by rewrite update_status_absent.
Qed.

Variable int_of_str : string → option Z.
Variable strip : string → string.
Variable lower : string → string.
Variable class_attr : Book → string → option string.

(** A round either goes as the round whose writes go through, or ends in
    the write of the call it has come to. *)
Lemma turn_on_cases (s : process) :
  let m0 := after (print_lines menu) (mach s) in
  turn_on write_fate int_of_str strip lower class_attr s
  = turn int_of_str strip lower class_attr s
  ∨ ∃ o c m' used rest ps',
      stdin s = used ++ rest
      ∧ turn_on write_fate int_of_str strip lower class_attr s
        = (Crash c, mkProcess m' rest ps')
      ∧ failed_write o c m0 m'
      ∧ write_fate (before_write m0 (books (lib (after (step o) m0))))
        ≠ Written.
Proof.
  intros m0. destruct s as [m ins ps]. subst m0. cbn [mach stdin].
  unfold turn_on, turn, io_bind, say, input, to_int, io_ret.
  cbn [lift mach stdin prompts].
  destruct ins as [|choice ins]; [by left|].
  cbn [mach stdin prompts].
  destruct (decide (choice = "1")) as [->|?].
  { destruct ins as [|t ins]; cbn [mach stdin prompts]; [by left|].
    destruct ins as [|a ins]; cbn [mach stdin prompts]; [by left|].
    destruct ins as [|y ins]; cbn [mach stdin prompts]; [by left|].
    destruct (int_of_str y) as [num|]; [|by left].
    match goal with |- context [add_book_on _ _ _ _ ?s1] =>
      destruct (step_on_cases (Add t a num) s1)
        as [[Heq _]|(c & m' & Heq & Hfail & Hfate & _)] end;
      cbn [step step_on mach stdin prompts] in *; rewrite Heq.
    - by left.
    - right. exists (Add t a num), c, m', ["1"; t; a; y], ins. eexists.
      split; [done|]. split; [reflexivity|]. done. }
  destruct (decide (choice = "2")) as [->|?].
  { destruct ins as [|y ins]; cbn [mach stdin prompts]; [by left|].
    destruct (int_of_str y) as [num|]; [|by left].
    match goal with |- context [delete_book_on _ _ ?s1] =>
      destruct (step_on_cases (Delete num) s1)
        as [[Heq _]|(c & m' & Heq & Hfail & Hfate & _)] end;
      cbn [step step_on mach stdin prompts] in *; rewrite Heq.
    - by left.
    - right. exists (Delete num), c, m', ["2"; y], ins. eexists.
      split; [done|]. split; [reflexivity|]. done. }
  destruct (decide (choice = "3")) as [->|?]; [by left|].
  destruct (decide (choice = "4")) as [->|?]; [by left|].
  destruct (decide (choice = "5")) as [->|?].
  { destruct ins as [|y ins]; cbn [mach stdin prompts]; [by left|].
    destruct (int_of_str y) as [num|]; [|by left].
    destruct ins as [|st ins]; cbn [mach stdin prompts]; [by left|].
    match goal with |- context [update_status_on _ _ _ ?s1] =>
      destruct (step_on_cases (UpdateStatus num (strip st)) s1)
        as [[Heq _]|(c & m' & Heq & Hfail & Hfate & _)] end;
      cbn [step step_on mach stdin prompts] in *; rewrite Heq.
    - by left.
    - right. exists (UpdateStatus num (strip st)), c, m', ["5"; y; st], ins.
      eexists. split; [done|]. split; [reflexivity|]. done. }
  by left.
Qed.

(** Every way one round can go. *)
Lemma turn_on_outcomes (s : process) :
  let m0 := after (print_lines menu) (mach s) in
  ∃ used rest ps',
    stdin s = used ++ rest
    ∧ ((∃ c, turn_on write_fate int_of_str strip lower class_attr s
             = (Crash c, mkProcess m0 rest ps')
             ∧ (c = EOFError ∧ rest = [] ∨ c = ValueError
                ∨ c = Uncaught TypeError))
       ∨ (∃ o c m',
            turn_on write_fate int_of_str strip lower class_attr s
            = (Crash c, mkProcess m' rest ps')
            ∧ failed_write o c m0 m'
            ∧ write_fate (before_write m0 (books (lib (after (step o) m0))))
              ≠ Written)
       ∨ (used = ["6"]
          ∧ turn_on write_fate int_of_str strip lower class_attr s
            = (Done false, mkProcess (after (print msg_exit) m0) rest ps'))
       ∨ (∃ c, used ≠ []
               ∧ turn_on write_fate int_of_str strip lower class_attr s
                 = (Done true,
                    mkProcess (effect strip lower class_attr c m0) rest ps'))).
Proof.
  intros m0.
  destruct (turn_on_cases s)
    as [->|(o & c & m' & used & rest & ps' & Hin & Hturn & Hfail & Hfate)].
  - destruct (turn_outcomes int_of_str strip lower class_attr s)
      as (used & rest & ps' & Hin & Hcases).
    exists used, rest, ps'. split; [done|]. fold m0 in Hcases. tauto.
  - exists used, rest, ps'. split; [done|]. right. left. by exists o, c, m'.
Qed.

(** How the loop can end: by the choice 6 or by an exception raised before
    the library was asked to change anything, and then what the three
    changing calls keep is kept; or by the write of a call. *)
Lemma loop_on_ends (Q : Library → gmap string file → Prop)
    (rounds : nat) (s : process) :
  (∀ o m, Q (lib m) (disk m) →
          Q (lib (after (step o) m)) (disk (after (step o) m))) →
  (length (stdin s) < rounds)%nat →
  Q (lib (mach s)) (disk (mach s)) →
  ∃ how s',
    loop_on write_fate int_of_str strip lower class_attr rounds s
    = Some (how, s')
    ∧ match how with
      | Exited => Q (lib (mach s')) (disk (mach s'))
      | Crashed c =>
          (before_any_change c ∧ (c = EOFError → stdin s' = [])
           ∧ Q (lib (mach s')) (disk (mach s')))
          ∨ ∃ o before,
              Q (lib before) (disk before)
              ∧ failed_write o c before (mach s')
              ∧ write_fate (before_write before
                              (books (lib (after (step o) before))))
                ≠ Written
      end.
Proof.
  intros Hstep. revert s. induction rounds as [|rounds IH]; intros s Hlen HQ;
    [lia|].
  destruct (print_lines_core menu (mach s)) as [Hl Hd].
  cbn [loop_on].
  destruct (turn_on_outcomes s)
    as (used & rest & ps' & Hin
        & [(c & -> & Hc)|[(o & c & m' & -> & Hfail & Hfate)
          |[[_ ->]|(c & Hused & ->)]]]).
  - eexists _, _. split; [done|]. left. cbn [mach stdin].
    rewrite Hl, Hd. unfold before_any_change. split_and!; [tauto| |done].
    intros ->. by destruct Hc as [[_ ?]|[?|?]].
  - eexists _, _. split; [done|]. right. cbn [mach].
    exists o, (after (print_lines menu) (mach s)). split; [|done].
    by rewrite Hl, Hd.
  - eexists _, _. split; [done|]. cbn [mach after print snd lib disk].
    by rewrite Hl, Hd.
  - apply IH.
    + cbn [stdin]. rewrite Hin, length_app in Hlen.
      destruct used; [done|]. simpl in Hlen. lia.
    + cbn [mach].
      destruct (effect_core strip lower class_attr c
                  (after (print_lines menu) (mach s))) as [[-> ->]|[o ->]].
      * by rewrite Hl, Hd.
      * apply Hstep. by rewrite Hl, Hd.
Qed.

(** The loop reads its input from the front, and it ends by the [break]
    only on reading the choice 6. *)
Lemma loop_on_reads (rounds : nat) (s s' : process) (how : ending) :
  loop_on write_fate int_of_str strip lower class_attr rounds s
  = Some (how, s') →
  (∃ used, stdin s = used ++ stdin s') ∧ (how = Exited → "6" ∈ stdin s).
Proof.
  revert s. induction rounds as [|rounds IH]; intros s; [done|].
  cbn [loop_on].
  destruct (turn_on_outcomes s)
    as (used & rest & ps' & Hin
        & [(c & -> & Hc)|[(o & c & m' & -> & Hfail & _)
          |[[-> ->]|(c & Hused & ->)]]]).
  - intros [= <- <-]. split; [by eexists|done].
  - intros [= <- <-]. split; [by eexists|done].
  - intros [= <- <-]. rewrite Hin. cbn [stdin].
    split; [by eexists|]. intros _. apply elem_of_cons. by left.
  - intros [[used' Hrest] Hsix]%IH. cbn [stdin] in *. rewrite Hin. split.
    + exists (used ++ used'). by rewrite <- app_assoc, <- Hrest.
    + intros Hexit. apply elem_of_app. right. by apply Hsix.
Qed.

(** When every write goes through, the calls, the rounds and the loop are
    those of the simple methods. *)
Lemma turn_on_written (s : process) :
  (∀ m, write_fate m = Written) →
  turn_on write_fate int_of_str strip lower class_attr s
  = turn int_of_str strip lower class_attr s.
Proof.
  intros Hall.
  destruct (turn_on_cases s)
    as [->|(o & c & m' & used & rest & ps' & _ & _ & _ & Hfate)]; [done|].
  by rewrite Hall in Hfate.
Qed.

Lemma loop_on_written (rounds : nat) (s : process) :
  (∀ m, write_fate m = Written) →
  loop_on write_fate int_of_str strip lower class_attr rounds s
  = loop int_of_str strip lower class_attr rounds s.
Proof.
  intros Hall. revert s. induction rounds as [|rounds IH]; intros s; [done|].
  cbn [loop_on loop]. rewrite (turn_on_written s Hall).
  destruct (turn _ _ _ _ s) as [[[|]|c] s']; [apply IH|done..].
Qed.

End WriteFacts.

(** [main] is [main_on] where every write goes through. *)
Lemma main_on_all_written (int_of_str : string → option Z)
    (strip lower : string → string)
    (class_attr : Book → string → option string)
    (lines : list string) (d : gmap string file) :
  main int_of_str strip lower class_attr lines d
  = match main_on all_written int_of_str strip lower class_attr lines d with
    | Returns ended => (λ r, Ran r.1 r.2) <$> ended
    | Raises e => Some (NotBuilt e)
    | IllTyped => Some Untyped
    end.
Proof.
  unfold main, main_on.
  destruct (Library_init "library.json" d []) as [m|e|]; cbn [and_then];
    [|done..].
  by rewrite loop_on_written.
Qed.

(** X15. Fed a finite input, [main] comes to an end within one round more
    than there are lines.  This is for a store that is missing, is not
    UTF-8, is no JSON or is a text [json.load] returns a value from, whose
    records, where they have the five keys, hold values of the types
    [Book.__init__] announces; for a console that takes every text; and for
    writes that go through, are refused by [open] or are torn.  Then either
    [Library()] raises, which it does with [UnicodeDecodeError], with
    [TypeError] or with [KeyError] for one of the five keys; or the loop
    runs, reads the lines from the front and ends: by the [break], which
    takes the choice 6 among the lines; by [EOFError] when the input is used
    up; by [ValueError] when a line that should be a number is none; by the
    [TypeError] of a search by the field "self"; or in a write of the
    store, which takes a write that does not go through. *)
Theorem main_ends (write_fate : machine → fate)
    (int_of_str : string → option Z) (strip lower : string → string)
    (class_attr : Book → string → option string)
    (lines : list string) (d : gmap string file) :
  Library_init "library.json" d [] ≠ IllTyped →
  match main_on write_fate int_of_str strip lower class_attr lines d with
  | Returns ended =>
      ∃ how s,
        ended = Some (how, s)
        ∧ (∃ used, lines = used ++ stdin s)
        ∧ match how with
          | Exited => "6" ∈ lines
          | Crashed c =>
              c = EOFError ∧ stdin s = [] ∨ c = ValueError
              ∨ c = Uncaught TypeError
              ∨ (c = OpenError ∨ c = DumpError)
                ∧ ∃ m, write_fate m ≠ Written
          end
  | Raises e =>
      e = UnicodeDecodeError ∨ e = TypeError
      ∨ ∃ k, e = KeyError k ∧ k ∈ record_keys
  | IllTyped => False
  end.
Proof.
  intros Htyped. unfold main_on, Library_init in *.
  destruct (load_books "library.json" d) as [bs|e|] eqn:Hload; cbn [and_then].
  - destruct (loop_on_ends write_fate int_of_str strip lower class_attr
                (λ _ _, True) (S (length lines))
                (mkProcess (mkMachine (mkLibrary "library.json" bs) d []) lines []))
      as (how & s' & Hloop & Hhow); [done|simpl; lia|done|].
    exists how, s'. split; [done|].
    destruct (loop_on_reads write_fate int_of_str strip lower class_attr
                _ _ _ _ Hloop) as [Hused Hsix].
    split; [done|]. destruct how as [|c]; [by apply Hsix|].
    destruct Hhow as [(Hc & Heof & _)|(o & before & _ & Hfail & Hfate)].
    + destruct Hc as [-> | [-> | ->]]; [left; split; [done|by apply Heof]|tauto..].
    + do 3 right. split; [|by eexists].
      destruct Hfail as (_ & _ & [[-> _]|(cut & -> & _)]); tauto.
  - by apply (load_books_raises "library.json" d).
  - done.
Qed.

Lemma main_ends_witness :
  ∃ s, main_on (λ _, Refused) int_of_text (λ text, text) ascii_lower
         no_class_attr ["4"; "1"; "Oblomov"; "Goncharov"; "1859"; "6"] ∅
       = Returns (Some (Crashed OpenError, s))
       ∧ stdin s = ["6"]
       ∧ books (lib (mach s)) = [mkBook 1 "Oblomov" "Goncharov" 1859 default_status]
       ∧ disk (mach s) = ∅.
Proof.
  pose proof (main_ends (λ _, Refused) int_of_text (λ text, text) ascii_lower
                no_class_attr ["4"; "1"; "Oblomov"; "Goncharov"; "1859"; "6"] ∅)
    as Hends.
  destruct (main_on _ _ _ _ _ _ _) as [ended| |] eqn:Hmain;
    [|by vm_compute in Hmain..].
  destruct Hends as (how & s & -> & _); [by vm_compute|].
  exists s. vm_compute in Hmain. injection Hmain as <- <-. by vm_compute.
Defined.

(** X16. What a session of [main] leaves in the store.  When it ends by
    the choice 6, or by an exception raised before the library was asked to
    change anything, the store is in step with the memory: started again,
    the program loads exactly the catalogue the session had at its end.
    When it ends in a write that [open] refused, the store is one call
    behind: started again, the program loads the catalogue as it was before
    the call whose write raised, and the change that call made in memory is
    lost.  When it ends in a torn write, the catalogue that was stored is
    lost: started again, the program finds an empty catalogue, or dies of
    [UnicodeDecodeError].  However the session ends, ids that were pairwise
    distinct when loaded still are, in memory, and statuses that were
    allowed when loaded still are. *)
Theorem main_keeps_store (write_fate : machine → fate)
    (int_of_str : string → option Z) (strip lower : string → string)
    (class_attr : Book → string → option string)
    (lines : list string) (d : gmap string file)
    (m0 : machine) (how : ending) (s : process) :
  Library_init "library.json" d [] = Returns m0 →
  main_on write_fate int_of_str strip lower class_attr lines d
  = Returns (Some (how, s)) →
  let restart := Library_init "library.json" (disk (mach s)) [] in
  match how with
  | Crashed OpenError =>
      ∃ o before,
        restart = Returns (mkMachine (lib before) (disk (mach s)) [])
        ∧ lib (mach s) = lib (after (step o) before)
  | Crashed DumpError =>
      restart = Returns (mkMachine (mkLibrary "library.json" [])
                           (disk (mach s)) [])
      ∨ restart = Raises UnicodeDecodeError
  | _ =>
      restart = Returns (mkMachine (lib (mach s)) (disk (mach s)) [])
  end
  ∧ (NoDup (ids m0) → NoDup (ids (mach s)))
  ∧ (Forall (λ book, status book ∈ valid_statuses) (books (lib m0)) →
     Forall (λ book, status book ∈ valid_statuses) (books (lib (mach s)))).
Proof.
  intros Hinit Hmain restart. unfold main_on in Hmain.
  rewrite Hinit in Hmain. cbn [and_then] in Hmain.
  apply Library_init_in_sync in Hinit as (Hsync & Hname & _).
  set (Q := λ (l : Library) (d' : gmap string file),
         (load_books (filename l) d' = Returns (books l)
          ∧ filename l = "library.json")
         ∧ (NoDup (ids m0) → NoDup (book_id <$> books l))
         ∧ (Forall (λ book, status book ∈ valid_statuses) (books (lib m0)) →
            Forall (λ book, status book ∈ valid_statuses) (books l))).
  assert (Hstep : ∀ o m, Q (lib m) (disk m) →
                         Q (lib (after (step o) m)) (disk (after (step o) m))).
  { intros o m [[Hs Hn] [Hnd Hst]]. split_and!.
    - by apply (step_in_sync o m).
    - by rewrite step_filename.
    - intros H0. apply (step_NoDup o m). by apply Hnd.
    - intros H0. apply step_statuses. by apply Hst. }
  assert (Hrestart : ∀ l d', load_books (filename l) d' = Returns (books l) →
                             filename l = "library.json" →
            Library_init "library.json" d' [] = Returns (mkMachine l d' [])).
  { intros l d' Hs Hn. unfold Library_init. rewrite <- Hn, Hs. simpl.
    by destruct l. }
  destruct (loop_on_ends write_fate int_of_str strip lower class_attr Q
              (S (length lines)) (mkProcess m0 lines []))
    as (how' & s' & Hloop & Hhow); [done|simpl; lia|by split_and!|].
  rewrite Hloop in Hmain. injection Hmain as <- <-. subst restart.
  destruct how' as [|c].
  { destruct Hhow as [[Hs Hn] [Hnd Hst]]. split_and!; [|done..].
    by apply Hrestart. }
  destruct Hhow as [(Hc & _ & [[Hs Hn] [Hnd Hst]])
                   |(o & before & [[Hs Hn] [Hnd Hst]] & Hfail & _)].
  - split_and!; [|done..].
    destruct Hc as [-> | [-> | ->]]; by apply Hrestart.
  - destruct (Hstep o before) as [_ [Hnd' Hst']]; [by split_and!|].
    destruct Hfail as (Hlib & _ & [[-> Hdisk]|(cut & -> & Hdisk)]).
    + split_and!.
      * exists o, before. split; [|done]. rewrite Hdisk. by apply Hrestart.
      * unfold ids. by rewrite Hlib.
      * by rewrite Hlib.
    + split_and!.
      * rewrite Hdisk, Hn. unfold Library_init, load_books, read_books, open_read.
        rewrite lookup_insert_eq. destruct cut; simpl; [by right|by left].
      * unfold ids. by rewrite Hlib.
      * by rewrite Hlib.
Qed.

Lemma main_keeps_store_witness :
  ∃ s, main_on (λ m, if decide (length (books (lib m)) = 2%nat)
                     then Torn false else Written)
         int_of_text (λ text, text) ascii_lower no_class_attr
         ["1"; "Oblomov"; "Goncharov"; "1859";
          "1"; "Dead Souls"; "Gogol"; "1842"; "6"] ∅
       = Returns (Some (Crashed DumpError, s))
       ∧ length (books (lib (mach s))) = 2%nat
       ∧ Library_init "library.json" (disk (mach s)) []
         = Returns (mkMachine (mkLibrary "library.json" []) (disk (mach s)) []).
Proof.
  eexists. split; [by vm_compute|]. split; [by vm_compute|].
  edestruct (main_keeps_store
              (λ m, if decide (length (books (lib m)) = 2%nat)
                    then Torn false else Written)
              int_of_text (λ text, text) ascii_lower no_class_attr
              ["1"; "Oblomov"; "Goncharov"; "1859";
               "1"; "Dead Souls"; "Gogol"; "1842"; "6"] ∅
              empty_machine (Crashed DumpError))
    as [[Hempty|Hraise] _];
    [by vm_compute|by vm_compute|exact Hempty|by vm_compute in Hraise].
Defined.

(** X17. A round of the menu that ends in an exception has printed the menu
    and nothing else, and has read the lines of its command from the front
    of the input.  When the exception is raised before the library is asked
    to change anything ([EOFError] for an input that ends in the middle of a
    command, [ValueError] for a year or an id that is no number, [TypeError]
    for a search by "self"), neither the catalogue nor the store has
    changed.  Otherwise it is the write of the call that raised: the
    catalogue has changed in memory as the call changes it, the notice of
    success has not been printed, and the file is as it was when [open]
    refused, and torn when the writing stopped. *)
Theorem round_crash (write_fate : machine → fate)
    (int_of_str : string → option Z) (strip lower : string → string)
    (class_attr : Book → string → option string)
    (s s' : process) (c : crash) :
  turn_on write_fate int_of_str strip lower class_attr s = (Crash c, s') →
  let m0 := after (print_lines menu) (mach s) in
  console (mach s') = console (mach s) ++ menu
  ∧ (∃ used, stdin s = used ++ stdin s')
  ∧ (before_any_change c ∧ (c = EOFError → stdin s' = [])
     ∧ lib (mach s') = lib (mach s) ∧ disk (mach s') = disk (mach s)
     ∨ ∃ o, failed_write o c m0 (mach s')
            ∧ write_fate (before_write m0 (books (lib (after (step o) m0))))
              ≠ Written).
Proof.
  intros Hturn m0.
  assert (Hm0 : m0 = mkMachine (lib (mach s)) (disk (mach s))
                       (console (mach s) ++ menu)).
  { subst m0. unfold after. by rewrite print_lines_run. }
  destruct (turn_on_outcomes write_fate int_of_str strip lower class_attr s)
    as (used & rest & ps' & Hin
        & [(c' & Hc & Hkind)|[(o & c' & m' & Hc & Hfail & Hfate)
          |[[_ Hc]|(c' & _ & Hc)]]]);
    fold m0 in Hc; rewrite Hturn in Hc; [| |done..].
  - injection Hc as -> ->. cbn [mach stdin]. rewrite Hm0. cbn.
    split_and!; [done|by exists used|]. left. unfold before_any_change.
    split_and!; [tauto| |done..].
    intros ->. by destruct Hkind as [[_ ?]|[?|?]].
  - injection Hc as -> ->. cbn [mach stdin]. fold m0 in Hfail, Hfate.
    split_and!; [|by exists used|right; by exists o].
    destruct Hfail as (_ & -> & _). by rewrite Hm0.
Qed.

Lemma round_crash_witness :
  let s' := (turn_on (λ _, Refused) int_of_text (λ text, text) ascii_lower
               no_class_attr
               (mkProcess one_book ["1"; "Demons"; "Dostoevsky"; "1872"; "6"] [])).2 in
  console (mach s') = console one_book ++ menu
  ∧ stdin s' = ["6"]
  ∧ books (lib (mach s'))
    = books (lib one_book)
      ++ [mkBook 2 "Demons" "Dostoevsky" 1872 default_status]
  ∧ disk (mach s') = disk one_book.
Proof.
  intros s'. split; [|by vm_compute].
  refine (proj1 (round_crash (λ _, Refused) int_of_text (λ text, text)
                   ascii_lower no_class_attr
                   (mkProcess one_book
                      ["1"; "Demons"; "Dostoevsky"; "1872"; "6"] [])
                   s' OpenError _)).
  by vm_compute.
Defined.

(** X5. A [Library] built on a file that is missing, or whose text is not
    JSON, starts empty, and building it writes nothing.  The first
    [add_book] then numbers its book 1 and puts it in the catalogue, and
    what becomes of the store is the write's to say.  When the write goes
    through, the file holds the list of that one record, the notice is
    printed, and the program started again loads the book.  When [open]
    refuses, as it does for a file in a directory that does not exist,
    [add_book] raises with the file as it was and nothing printed: started
    again, the program is empty again.  When the write is torn, [add_book]
    raises with a file that is no JSON: started again, the program is empty
    again, or dies of [UnicodeDecodeError] when the text was cut inside a
    character. *)
Theorem init_recovers (write_fate : machine → fate) (name : string)
    (d : gmap string file) (out ins ps : list string) (t a : string) (y : Z) :
  d !! name = None ∨ d !! name = Some Malformed →
  let m := mkMachine (mkLibrary name []) d out in
  let first := mkBook 1 t a y default_status in
  let at_write := mkMachine (mkLibrary name [first]) d out in
  Library_init name d out = Returns m
  ∧ match write_fate at_write with
    | Written =>
        let d' := <[name := Document (JList [to_dict first])]> d in
        add_book_on write_fate t a y (mkProcess m ins ps)
        = (Done PyNone,
           mkProcess (mkMachine (mkLibrary name [first]) d'
                        (out ++ [msg_added 1])) ins ps)
        ∧ Library_init name d' out
          = Returns (mkMachine (mkLibrary name [first]) d' out)
    | Refused =>
        add_book_on write_fate t a y (mkProcess m ins ps)
        = (Crash OpenError, mkProcess at_write ins ps)
    | Torn cut =>
        let d' := <[name := torn cut]> d in
        add_book_on write_fate t a y (mkProcess m ins ps)
        = (Crash DumpError,
           mkProcess (mkMachine (mkLibrary name [first]) d' out) ins ps)
        ∧ Library_init name d' out
          = if cut then Raises UnicodeDecodeError
            else Returns (mkMachine (mkLibrary name []) d' out)
    end.
Proof.
  intros Hfile m first at_write. split.
  { destruct Hfile; [by apply init_missing_store | by apply init_malformed_store]. }
  unfold add_book_on, io_bind, lift, save_books_on, result_of, after, io_ret.
  cbn [mach stdin prompts get_books set_books fst snd lib books filename
       disk console m].
  change (write_fate _) with (write_fate at_write).
  destruct (write_fate at_write) as [| |cut].
  - split; [reflexivity|].
    unfold Library_init, load_books.
    change [to_dict first] with (to_dict <$> [first]).
    by rewrite read_books_saved.
  - reflexivity.
  - split; [reflexivity|].
    unfold Library_init, load_books, read_books, open_read.
    rewrite lookup_insert_eq. by destruct cut.
Qed.

Lemma init_recovers_witness :
  add_book_on (λ _, Refused) "Oblomov" "Goncharov" 1859
    (mkProcess (mkMachine (mkLibrary "no_such_dir/library.json" []) ∅ []) [] [])
  = (Crash OpenError,
     mkProcess (mkMachine
                  (mkLibrary "no_such_dir/library.json"
                     [mkBook 1 "Oblomov" "Goncharov" 1859 default_status])
                  ∅ []) [] []).
Proof.
  apply (init_recovers (λ _, Refused) "no_such_dir/library.json" ∅ [] [] []
           "Oblomov" "Goncharov" 1859).
  left. apply lookup_empty.
Defined.

(** X18. The three calls that change a catalogue raise in their write and
    nowhere else.  A call that does not come to a write ([delete_book] of
    an id that is not there, [update_status] of such an id or to a status
    that is not allowed) returns whatever the file system does, and leaves
    the catalogue and the store alone.  A call that comes to a write returns
    exactly when the write goes through, and has then done what the simple
    method does.  When the write raises, the call raises with it, after the
    change of the catalogue in memory and before the notice of success:
    nothing is printed, nothing is read, and the file is as it was when
    [open] refused, and torn when the writing stopped. *)
Theorem calls_raise_in_write (write_fate : machine → fate)
    (o : op) (s : process) :
  let m := mach s in
  let at_write := before_write m (books (lib (after (step o) m))) in
  (step_on write_fate o s = lift (step o) s
   ↔ (reaches_write o m → write_fate at_write = Written))
  ∧ (¬ reaches_write o m →
     step_on write_fate o s = lift (step o) s
     ∧ lib (after (step o) m) = lib m ∧ disk (after (step o) m) = disk m)
  ∧ (∀ c s', step_on write_fate o s = (Crash c, s') →
       reaches_write o m
       ∧ write_fate at_write ≠ Written
       ∧ stdin s' = stdin s ∧ prompts s' = prompts s
       ∧ lib (mach s') = lib (after (step o) m)
       ∧ console (mach s') = console m
       ∧ (c = OpenError ∧ disk (mach s') = disk m
          ∨ ∃ cut, c = DumpError
                   ∧ disk (mach s')
                     = <[filename (lib m) := torn cut]> (disk m))).
Proof.
  intros m at_write. subst m at_write.
  destruct (step_on_cases write_fate o s)
    as [[Heq Hfate]|(c & m' & Heq & Hfail & Hfate & Hreach)]; rewrite Heq.
  - split_and!.
    + by split.
    + intros Hno. split; [done|]. by apply step_without_write.
    + intros c s' Hcrash. unfold lift in Hcrash. by injection Hcrash.
  - split_and!.
    + unfold lift. split; [done|]. intros Hwritten. by destruct Hfate; auto.
    + intros Hno. by destruct Hno.
    + intros c' s' [= <- <-]. cbn [mach stdin prompts].
      destruct Hfail as (Hlib & Hcon & Hdisk). by split_and!.
Qed.

Example delete_book_on_refused :
  let s := mkProcess machine_1_3 [] [] in
  step_on (λ _, Refused) (Delete 2) s = lift (step (Delete 2)) s
  ∧ step_on (λ _, Refused) (UpdateStatus 1 "потеряна") s
    = lift (step (UpdateStatus 1 "потеряна")) s
  ∧ ∃ m', step_on (λ _, Refused) (Delete 1) s = (Crash OpenError, mkProcess m' [] [])
          ∧ ids m' = [3] ∧ disk m' = disk machine_1_3.
Proof.
  split; [by vm_compute|]. split; [by vm_compute|].
  eexists. split; [by vm_compute|]. by vm_compute.
Qed.
